(** * taiwan-stock-ai-bot: scan orchestration engine

    A shallow embedding of the quota/dedup ledger, the liquidity prefetch
    filter, the technical strategy, the FinMind fetch client and its rate
    limiter, with the properties the specification states about them.

    Conventions of the embedding
    - Python [float] values (prices, volumes, wall-clock seconds) are exact
      rationals [Q]; rounding and NaN are not modelled, and an infinite value
      only where a type provides for it.
    - Python [int] values are [Z]; [str] is [string] (a byte sequence, so the
      Chinese literals of the source are their UTF-8 bytes).
    - A [dict] is a [gmap]; module-level mutable globals ([sent_today],
      [_seen]) are fields of an explicit world state threaded through calls.
    - A call that may raise returns [Res]; results of external collaborators
      (HTTP, clock, database) are supplied by an environment record. *)

From Stdlib Require Import ZArith QArith Qminmax Lqa Lia Ascii.
From stdpp Require Import base gmap strings list fin_maps pretty.

Open Scope Z_scope.

(* ===================================================================== *)
(** ** Python helpers                                                      *)
(* ===================================================================== *)

(** Outcome of a call that may raise an exception. *)
Inductive Res (A : Type) : Type :=
| Ok (a : A)
| Raise.
Arguments Ok {A} a.
Arguments Raise {A}.

(** [x < y] on floats. *)
Definition Qltb (x y : Q) : bool :=
  (Qnum x * Zpos (Qden y) <? Qnum y * Zpos (Qden x))%Z.

(** [x >= y] on floats. *)
Definition Qgeb (x y : Q) : bool := negb (Qltb x y).

(** Truthiness of a [str]: the empty string is falsy. *)
Definition str_truthy (s : string) : bool :=
  match s with EmptyString => false | _ => true end.

(** [a or b] on strings. *)
Definition str_or (a b : string) : string := if str_truthy a then a else b.

(** [sep.join(l)]. *)
Fixpoint join (sep : string) (l : list string) : string :=
  match l with
  | [] => EmptyString
  | [x] => x
  | x :: rest => x +:+ sep +:+ join sep rest
  end.

(** [list(dict.fromkeys(l))]: drop repeats, keep the first occurrence and the
    order. *)
Fixpoint fromkeys (l : list string) : list string :=
  match l with
  | [] => []
  | x :: rest => x :: filter (λ y, y ≠ x) (fromkeys rest)
  end.

(** [str.isdigit()] on the bytes of an ASCII string: non-empty and every
    character one of 0..9. *)
Definition is_digit_char (c : ascii) : bool :=
  let n := nat_of_ascii c in (48 <=? n)%nat && (n <=? 57)%nat.

Fixpoint all_digits (s : string) : bool :=
  match s with
  | EmptyString => true
  | String c rest => is_digit_char c && all_digits rest
  end.

Definition isdigit (s : string) : bool := str_truthy s && all_digits s.

(** [l[:k]] with Python's reading of a negative [k]. *)
Definition py_take {A} (k : Z) (l : list A) : list A :=
  if k <? 0 then take (Z.to_nat (Z.of_nat (length l) + k)) l
  else take (Z.to_nat k) l.

(** [l[a:b]] for negative [a] and [b] counted from the end, as in
    [iloc[-21:-1]]. *)
Definition py_slice_neg {A} (a b : nat) (l : list A) : list A :=
  let n := length l in
  let start := (n - a)%nat in
  let stop := (n - b)%nat in
  take (stop - start) (drop start l).

(** [bool] printed by an f-string. *)
Definition str_of_bool (b : bool) : string := if b then "True" else "False".

(* ===================================================================== *)
(** ** config.py                                                           *)
(* ===================================================================== *)

(** The operational parameters read from the process environment. *)
Record Config := mkConfig {
  FINMIND_QPS : Q;
  DISCORD_WEBHOOK : string;
  ENV_DISCORD_WEBHOOK : string;   (* os.getenv("DISCORD_WEBHOOK"), empty when unset *)
  MAX_SIGNAL_PER_STOCK : Z;
  MAX_SIGNAL_TOTAL : Z;
  DEDUP_WINDOW_SEC : Z
}.

(** The values config.py falls back to when no variable is set. *)
Definition default_config : Config :=
  {| FINMIND_QPS := 4;
     DISCORD_WEBHOOK := "";
     ENV_DISCORD_WEBHOOK := "";
     MAX_SIGNAL_PER_STOCK := 20;
     MAX_SIGNAL_TOTAL := 200;
     DEDUP_WINDOW_SEC := 1200 |}.

(* ===================================================================== *)
(** ** The world: process-wide mutable state and the sinks                *)
(* ===================================================================== *)

(** A row of storage/signals_db.py's [signals] table (the timestamp column is
    the database's own). *)
Record Signal := mkSignal {
  sig_stock_id : string;
  sig_stock_name : string;
  sig_strategy_name : string;
  sig_price : Q;
  sig_trigger_count : Z;
  sig_signal_type : string;
  sig_reason : string
}.

Record World := mkWorld {
  sent_today : gmap string Z;   (* main.sent_today *)
  _seen : gmap string Q;        (* notifier._seen: hash -> last push time *)
  signals : list Signal;        (* rows written by log_signal, oldest first *)
  discord : list string;        (* contents the webhook accepted (200/204) *)
  terminal : list string        (* lines printed by print_terminal *)
}.

Definition world0 : World := mkWorld ∅ ∅ [] [] [].

Definition set_sent_today (f : gmap string Z → gmap string Z) (w : World) : World :=
  mkWorld (f (sent_today w)) (_seen w) (signals w) (discord w) (terminal w).
Definition set_seen (f : gmap string Q → gmap string Q) (w : World) : World :=
  mkWorld (sent_today w) (f (_seen w)) (signals w) (discord w) (terminal w).
Definition add_signal (s : Signal) (w : World) : World :=
  mkWorld (sent_today w) (_seen w) (signals w ++ [s]) (discord w) (terminal w).
Definition add_discord (m : string) (w : World) : World :=
  mkWorld (sent_today w) (_seen w) (signals w) (discord w ++ [m]) (terminal w).
Definition add_terminal (m : string) (w : World) : World :=
  mkWorld (sent_today w) (_seen w) (signals w) (discord w) (terminal w ++ [m]).

(* ===================================================================== *)
(** ** modules/notifier.py                                                 *)
(* ===================================================================== *)

(** What [requests.post] did: a response with a status code, or an
    exception. *)
Inductive PostOutcome :=
| PostStatus (code : Z)
| PostRaises.

(** [resp.status_code in (200, 204)]. *)
Definition post_accepted (p : PostOutcome) : bool :=
  match p with
  | PostStatus c => (c =? 200) || (c =? 204)
  | PostRaises => false
  end.

Section Notifier.

(** [hashlib.sha256(msg.encode("utf-8")).hexdigest()]. *)
Variable _hash_msg : string → string.
Variable cfg : Config.

(** [send_discord_message(message, webhook_url)]; [now] is what [time.time()]
    returns and [post] what [requests.post] does if it is reached. The
    function returns [None] on every path and raises on none. *)
Definition send_discord_message
    (message webhook_url : string) (now : Q) (post : PostOutcome) (w : World) : World :=
  let h := _hash_msg message in
  let last := default 0%Q (_seen w !! h) in
  if Qltb (now - last) (inject_Z (DEDUP_WINDOW_SEC cfg)) then w
  else
    let w1 := set_seen (λ m, <[h := now]> m) w in
    let webhook :=
      str_or webhook_url (str_or (DISCORD_WEBHOOK cfg) (ENV_DISCORD_WEBHOOK cfg)) in
    if negb (str_truthy webhook) then w1
    else if post_accepted post then add_discord message w1
    else w1.

End Notifier.

(* ===================================================================== *)
(** ** modules/fetch_price.py: the price frame and its indicators         *)
(* ===================================================================== *)

(** One observation of the normalised price frame. *)
Record Bar := mkBar {
  close : Q;
  volume : Q;
  MA5 : Q;
  MA20 : Q;
  Volume_avg : Q
}.

(** The frame: its rows ordered by date, and whether it carries both the
    [volume] and the [Volume_avg] column (the test of strategy_router.py
    line 55; frames built by [_normalize_price_df] always do). *)
Record DataFrame := mkDataFrame {
  bars : list Bar;
  volume_columns : bool
}.

Definition Qsum (l : list Q) : Q := foldr Qplus 0%Q l.

(** [series.rolling(window, min_periods=1).mean()] at position [i]. *)
Definition rolling_mean (window : nat) (xs : list Q) (i : nat) : Q :=
  let win := take (S i - (S i - window)) (drop (S i - window) xs) in
  (Qsum win / inject_Z (Z.of_nat (length win)))%Q.

(** The indicator columns [_normalize_price_df] adds (lines 91-96) to a frame
    given by its [close] and [volume] columns. *)
Definition _normalize_price_df (raw : list (Q * Q)) : DataFrame :=
  let closes := raw.*1 in
  let volumes := raw.*2 in
  mkDataFrame
    (imap (λ i cv, mkBar cv.1 cv.2
                     (rolling_mean 5 closes i)
                     (rolling_mean 20 closes i)
                     (rolling_mean 20 volumes i)) raw)
    true.

(** [series.max()]: [None] is the NaN of an empty series. *)
Fixpoint series_max (l : list Q) : option Q :=
  match l with
  | [] => None
  | x :: rest =>
      match series_max rest with
      | None => Some x
      | Some m => Some (if Qltb x m then m else x)
      end
  end.

(** [x > y] where [y] may be NaN: every comparison with NaN is false. *)
Definition gt_nan (x : Q) (y : option Q) : bool :=
  match y with
  | Some m => Qltb m x
  | None => false
  end.

(** [df.iloc[-k]] for [k >= 1]. *)
Definition iloc_neg (k : nat) (l : list Bar) : option Bar :=
  if (length l <? k)%nat then None else l !! (length l - k)%nat.

(* ===================================================================== *)
(** ** modules/strategy_router.py                                          *)
(* ===================================================================== *)

Record Advice := mkAdvice {
  buy_zone : Q * Q;
  stop : Q;
  tp1 : option Q;
  tp2 : option Q
}.

(** A strategy's verdict. [advice] is [None] both when the key is absent and
    when its value is [None]. *)
Record StrategyResult := mkResult {
  strategy : string;
  triggered : bool;
  reason : string;
  advice : option Advice
}.

(** A row of the fund-flow frame, with the three columns [get_fund_flow]
    always returns; [None] is a cell [to_numeric] coerces to NaN. *)
Record FundRow := mkFundRow {
  Foreign_Investor : option Q;
  Investment_Trust : option Q;
  Dealer_self : option Q
}.

(** A ranked news item, by the keys [strategy_news] reads. *)
Record NewsItem := mkNews {
  sentiment : string;
  sentiment_score : option Q;
  score : option Q
}.

Definition upper_char (c : ascii) : ascii :=
  let n := nat_of_ascii c in
  if (97 <=? n)%nat && (n <=? 122)%nat then ascii_of_nat (n - 32) else c.

Fixpoint upper (s : string) : string :=
  match s with
  | EmptyString => EmptyString
  | String c rest => String (upper_char c) (upper rest)
  end.

Section StrategyRouter.

(** [f"{x:.<digits>f}"]. *)
Variable format_f : nat → Q → string.

Definition _build_advice (df : DataFrame) : option Advice :=
  if (length (bars df) <? 60)%nat then None
  else
    match iloc_neg 1 (bars df) with
    | None => None
    | Some today =>
        let ma5 := MA5 today in
        let ma20 := MA20 today in
        let lo := if Qltb ma20 ma5 then ma20 else ma5 in
        let hi := if Qltb ma20 ma5 then ma5 else ma20 in
        let past20_high := series_max (close <$> py_slice_neg 21 1 (bars df)) in
        let past60_high := series_max (close <$> py_slice_neg 61 1 (bars df)) in
        Some (mkAdvice (lo, hi) (Qmax 0 (lo * 0.98)) past20_high past60_high)
    end.

Definition technical_reason (trig gc vol br : bool) : string :=
  let ok_cnt := Z.b2z gc + Z.b2z vol + Z.b2z br in
  (if trig then "觸發（滿足 " else "未觸發（僅 ")
    +:+ pretty ok_cnt +:+ "/3）：金叉=" +:+ str_of_bool gc
    +:+ "、量能=" +:+ str_of_bool vol
    +:+ "、突破高點=" +:+ str_of_bool br.

Definition strategy_technical (df : option DataFrame) : StrategyResult :=
  match df with
  | None => mkResult "技術面" false "資料不足" None
  | Some df =>
      if (length (bars df) <? 21)%nat then mkResult "技術面" false "資料不足" None
      else
        match iloc_neg 1 (bars df), iloc_neg 2 (bars df) with
        | Some today, Some yesterday =>
            let golden_cross :=
              Qltb (MA5 yesterday) (MA20 yesterday) && Qltb (MA20 today) (MA5 today) in
            let vol_ok :=
              if volume_columns df
              then Qltb (Volume_avg today * 1.8) (volume today)
              else true in
            let past20_high := series_max (close <$> py_slice_neg 21 1 (bars df)) in
            let breakout_high := gt_nan (close today) past20_high in
            let triggered := golden_cross && vol_ok && breakout_high in
            let reason := technical_reason triggered golden_cross vol_ok breakout_high in
            mkResult "技術面" triggered reason
              (if triggered then _build_advice df else None)
        | _, _ => mkResult "技術面" false "資料不足" None
        end
  end.

(** [to_numeric(col, errors="coerce").fillna(0).sum()]. *)
Definition fillna_sum (col : list (option Q)) : Q := Qsum (default 0%Q <$> col).

(** [fund_data.tail(3)]. *)
Definition tail3 {A} (l : list A) : list A := drop (length l - 3) l.

(** [strategy_fundamental(fund_data)]. Its advice is never set:
    [_build_advice(fund_data)] returns [None] under 60 rows and otherwise
    raises on the missing [close] column, which line 106 catches. *)
Definition strategy_fundamental (fund_data : option (list FundRow)) : StrategyResult :=
  match fund_data with
  | None => mkResult "法人策略" false "法人資料不足" None
  | Some fd =>
      if (length fd <? 3)%nat then mkResult "法人策略" false "法人資料不足" None
      else
        let recent := tail3 fd in
        let fi := fillna_sum (Foreign_Investor <$> recent) in
        let it := fillna_sum (Investment_Trust <$> recent) in
        let ds := fillna_sum (Dealer_self <$> recent) in
        let total_buy := (fi + it + ds)%Q in
        let triggered := Qltb 1500 total_buy in
        let reason := "三大法人近3日合計淨買超 " +:+ format_f 0 total_buy +:+ " 張" in
        let reason := if triggered then reason else reason +:+ "（未達門檻 1500）" in
        mkResult "法人策略" triggered reason None
  end.

Definition _score (n : NewsItem) : Q :=
  match sentiment_score n with
  | Some s => s
  | None => default 0%Q (score n)
  end.

(** [max(xs, default=0.0)]. *)
Definition max_default (xs : list Q) : Q := default 0%Q (series_max xs).

Definition strategy_news (news_sentiments : list NewsItem) (pos_threshold : Q)
    : StrategyResult :=
  match news_sentiments with
  | [] => mkResult "新聞策略" false "無新聞資料" None
  | _ =>
      let pos_items :=
        filter (λ n, upper (sentiment n) = "POSITIVE") news_sentiments in
      match pos_items with
      | [] => mkResult "新聞策略" false "無正面新聞" None
      | _ =>
          let best := max_default (_score <$> pos_items) in
          let triggered := Qgeb best pos_threshold in
          let reason :=
            "最高正面分數=" +:+ format_f 2 best +:+ "（門檻 "
              +:+ format_f 2 pos_threshold +:+ "）" in
          mkResult "新聞策略" triggered reason None
      end
  end.

(** [run_all_strategies(df, fund_data, news_sentiments, **kwargs)].
    [pos_threshold] is the keyword of that name in [kwargs], [None] when the
    caller passed none; the strategies read no other keyword. The first two
    strategies take [**kwargs] and ignore it. The third call (lines 149-153)
    names [pos_threshold=kwargs.get('pos_threshold', 0.80)] and unpacks
    [**kwargs] beside it: when the caller did pass [pos_threshold], the
    keyword reaches [strategy_news] twice and the call raises TypeError,
    after the first two strategies have returned. *)
Definition run_all_strategies (df : option DataFrame)
    (fund_data : option (list FundRow)) (news_sentiments : list NewsItem)
    (pos_threshold : option Q) : Res (list StrategyResult) :=
  let technical := strategy_technical df in
  let fundamental := strategy_fundamental fund_data in
  match pos_threshold with
  | Some _ => Raise
  | None => Ok [technical; fundamental; strategy_news news_sentiments 0.80]
  end.

End StrategyRouter.

(* ===================================================================== *)
(** ** main.py: the per-candidate evaluation pipeline                      *)
(* ===================================================================== *)

(** What the collaborators of one [process_stock] call return. A [Raise] is
    an exception reaching the [try] of [process_stock]. *)
Record Env := mkEnv {
  env_price : Res (option DataFrame);  (* get_price_with_ma *)
  env_fund : Res (option (list FundRow)); (* get_fund_flow *)
  env_news : Res (list NewsItem);      (* link_news_to_stock, then rank_news *)
  env_now : Q;                         (* time.time() read by the notifier *)
  env_post : PostOutcome;              (* requests.post, if reached *)
  env_log_ok : bool                    (* log_signal returns (true) or raises *)
}.

Definition nl : string := String (ascii_of_nat 10) EmptyString.

(** [sum(sent_today.values())]. *)
Definition sum_values (m : gmap string Z) : Z :=
  map_fold (λ _ v acc, v + acc) 0 m.

(** [sent_today.get(stock_id, 0)]. *)
Definition get_count (m : gmap string Z) (stock_id : string) : Z :=
  default 0 (m !! stock_id).

Section Main.

Variable _hash_msg : string → string.
Variable format_f : nat → Q → string.
Variable cfg : Config.

(** [safe_send(msg)]. [send_discord_message] raises on no path, so the
    [except] of line 33 has nothing to catch. *)
Definition safe_send (msg : string) (now : Q) (post : PostOutcome) (w : World) : World :=
  if negb (str_truthy msg) then w
  else
    let w1 := add_terminal msg w in
    if str_truthy (DISCORD_WEBHOOK cfg)
    then send_discord_message _hash_msg cfg msg (DISCORD_WEBHOOK cfg) now post w1
    else w1.

(** The message of lines 68-72. *)
Definition compose_message (strategy_names stock_id stock_name : string)
    (count : Z) (price : Q) (reasons : string) : string :=
  "📈【" +:+ strategy_names +:+ " 進場】" +:+ stock_id +:+ " " +:+ stock_name
    +:+ " 第 " +:+ pretty (count + 1) +:+ "/" +:+ pretty (MAX_SIGNAL_PER_STOCK cfg)
    +:+ " 次" +:+ nl
    +:+ "價格約：" +:+ format_f 2 price +:+ " 元" +:+ nl
    +:+ "說明：" +:+ str_or reasons "觸發條件成立".

(** [log_signal(...)]: one row appended to the [signals] table. *)
Definition log_signal (stock_id stock_name strategy_name : string) (price : Q)
    (trigger_count : Z) (signal_type reason : string) (w : World) : World :=
  add_signal
    (mkSignal stock_id stock_name strategy_name price trigger_count signal_type reason) w.

(** The calls inside the [try] of [process_stock] that can raise. *)
Inductive Call :=
| GetPriceWithMa     (* line 46 *)
| GetFundFlow        (* line 51 *)
| LinkNews           (* lines 54-55: link_news_to_stock, rank_news *)
| RunAllStrategies   (* line 58 *)
| LastClose          (* line 66: df.iloc[-1] *)
| LogSignal.         (* line 76 *)

(** Where a call of [process_stock] leaves the function. *)
Inductive Exit :=
| ReturnQuota        (* the return of line 42: a cap is reached *)
| ReturnNoHistory    (* the return of line 48: no frame, or under 20 rows *)
| ReturnNoTrigger    (* the return of line 61 *)
| ReturnRecorded     (* the end of the [try] block, after line 77 *)
| Caught (c : Call). (* the [except] of line 79, for an exception of [c] *)

(** [process_stock(stock_id, stock_name, news_all, aliases_map)]: the exit
    taken and the world left behind. The coroutine has no [await] inside, so
    one call runs from its first line to its return without interleaving
    with another. Every exception is caught at line 79 and only printed to
    standard output. Line 58 passes [pos_threshold=0.80] to
    [run_all_strategies]. *)
Definition process_stock_run (stock_id stock_name : string) (e : Env) (w : World)
    : Exit * World :=
  let count := get_count (sent_today w) stock_id in
  let total := sum_values (sent_today w) in
  if (MAX_SIGNAL_PER_STOCK cfg <=? count) || (MAX_SIGNAL_TOTAL cfg <=? total)
  then (ReturnQuota, w)
  else
    match env_price e with
    | Raise => (Caught GetPriceWithMa, w)
    | Ok None => (ReturnNoHistory, w)
    | Ok (Some df) =>
        if (length (bars df) <? 20)%nat then (ReturnNoHistory, w)
        else
          match env_fund e with
          | Raise => (Caught GetFundFlow, w)
          | Ok fund_data =>
              match env_news e with
              | Raise => (Caught LinkNews, w)
              | Ok news_ranked =>
                  match run_all_strategies format_f (Some df) fund_data news_ranked
                          (Some 0.80%Q) with
                  | Raise => (Caught RunAllStrategies, w)
                  | Ok strategies =>
                      let triggers := filter (λ s, triggered s = true) strategies in
                      match triggers with
                      | [] => (ReturnNoTrigger, w)
                      | _ =>
                          let strategy_names :=
                            join "、" (fromkeys (strategy <$> triggers)) in
                          let reasons :=
                            join "；"
                              (fromkeys (filter (λ r, str_truthy r = true)
                                           (reason <$> triggers))) in
                          match iloc_neg 1 (bars df) with
                          | None => (Caught LastClose, w)
                          | Some today =>
                              let price := close today in
                              let message :=
                                compose_message strategy_names stock_id stock_name
                                  count price reasons in
                              let w1 := safe_send message (env_now e) (env_post e) w in
                              if env_log_ok e
                              then
                                let w2 :=
                                  log_signal stock_id stock_name strategy_names price
                                    (count + 1) "波段" reasons w1 in
                                (ReturnRecorded,
                                 set_sent_today (λ m, <[stock_id := count + 1]> m) w2)
                              else (Caught LogSignal, w1)
                          end
                      end
                  end
              end
          end
    end.

Definition process_stock (stock_id stock_name : string) (e : Env) (w : World) : World :=
  (process_stock_run stock_id stock_name e w).2.

(** One thing the scan loop does to the world: an evaluation, or the
    summary push at the end of a round ([safe_send(today_summary())]). *)
Inductive Action :=
| Evaluate (stock_id stock_name : string) (e : Env)
| Summary (msg : string) (now : Q) (post : PostOutcome).

Definition step (a : Action) (w : World) : World :=
  match a with
  | Evaluate sid sname e => process_stock sid sname e w
  | Summary msg now post => safe_send msg now post w
  end.

(** A process lifetime: the actions in the order they ran, from the state
    the modules are loaded with. *)
Definition run (acts : list Action) : World := foldl (λ w a, step a w) world0 acts.

End Main.

(* ===================================================================== *)
(** ** utils/stock_list.py: the liquidity prefetch filter                  *)
(* ===================================================================== *)

(** A candidate: [(stock_id, stock_name)]. *)
Definition Candidate : Type := string * string.

(** The value a batched quote holds for an id: its price, or [None] when
    the entry is empty or its price is [None]. *)
Definition QuoteInfo : Type := option Q.

Section StockList.

(** [get_quote_batch(ids, suffix=...)]: the quotes found, or an exception. *)
Variable get_quote_batch : list string → string → Res (gmap string QuoteInfo).
(** [get_latest_close_fast(sid, prefer_suffix=...)]. *)
Variable get_latest_close_fast : string → string → option Q.

Variable max_price : Q.
Variable max_checks : Z.

(** [info and info.get("price") is not None and float(info["price"]) < max_price]. *)
Definition price_ok (price_map : gmap string QuoteInfo) (sid : string) : bool :=
  match price_map !! sid with
  | Some (Some p) => Qltb p max_price
  | _ => false
  end.

(** The loop of lines 187-192, entered with [filtered] as collected so far. *)
Fixpoint batched_walk (price_map : gmap string QuoteInfo) (target : Z)
    (cand filtered : list Candidate) : list Candidate :=
  match cand with
  | [] => filtered
  | c :: rest =>
      let filtered' := if price_ok price_map c.1 then filtered ++ [c] else filtered in
      if target <=? Z.of_nat (length filtered') then filtered'
      else batched_walk price_map target rest filtered'
  end.

(** The loop of lines 205-219. *)
Fixpoint serial_walk (target : Z) (cand filtered : list Candidate) (checks : Z)
    : list Candidate :=
  match cand with
  | [] => filtered
  | c :: rest =>
      let p :=
        match get_latest_close_fast c.1 ".TW" with
        | None => get_latest_close_fast c.1 ".TWO"
        | Some p => Some p
        end in
      let filtered' :=
        match p with
        | Some v => if Qltb v max_price then filtered ++ [c] else filtered
        | None => filtered
        end in
      let checks' := checks + 1 in
      if (target <=? Z.of_nat (length filtered')) || (max_checks <=? checks')
      then filtered'
      else serial_walk target rest filtered' checks'
  end.

(** Lines 202-227: the serial tier, then the passthrough. *)
Definition serial_then_passthrough (target : Z) (cand : list Candidate)
    : list Candidate :=
  match serial_walk target cand [] 0 with
  | [] => py_take target cand
  | filtered => py_take target filtered
  end.

(** [cand] and [target] of lines 167-168; [limit] is [None] or an int. *)
Definition candidates (stocks : list Candidate) : list Candidate :=
  filter (λ c, isdigit c.1 = true) stocks.

Definition target_of (limit : option Z) (cand : list Candidate) : Z :=
  match limit with
  | Some l => if l =? 0 then Z.of_nat (length cand) else l
  | None => Z.of_nat (length cand)
  end.

(** What the batched tier (lines 174-195) does: it raised, or it completed
    with the list [filtered] it collected. *)
Definition batched_tier (target : Z) (cand : list Candidate)
    : Res (list Candidate) :=
  match get_quote_batch cand.*1 ".TW" with
  | Raise => Raise
  | Ok batch_tw =>
      let missing := filter (λ sid, batch_tw !! sid = None) cand.*1 in
      let second :=
        match missing with
        | [] => Ok ∅
        | _ => get_quote_batch missing ".TWO"
        end in
      match second with
      | Raise => Raise
      | Ok batch_two =>
          (* {**batch_tw, **batch_two}: a key of both takes batch_two's value *)
          let price_map := batch_two ∪ batch_tw in
          Ok (batched_walk price_map target cand [])
      end
  end.

(** [get_stocks_under_1500(stock_list=stocks, max_price, limit, max_checks)]
    for a list the caller passes. *)
Definition get_stocks_under_1500 (stocks : list Candidate) (limit : option Z)
    : list Candidate :=
  match stocks with
  | [] => []
  | _ =>
      let cand := candidates stocks in
      let target := target_of limit cand in
      match batched_tier target cand with
      | Ok (c :: filtered) => py_take target (c :: filtered)
      | Ok [] => serial_then_passthrough target cand
      | Raise => serial_then_passthrough target cand
      end
  end.

End StockList.

(* ===================================================================== *)
(** ** modules/finmind_client.py                                           *)
(* ===================================================================== *)

(** [_RateLimiter]: the lock makes [wait] calls run one after another. *)
Record RateLimiter := mkLimiter {
  min_interval : Q;
  _last : Q
}.

(** [_RateLimiter.__init__(qps)]. *)
Definition RateLimiter_init (qps : Q) : RateLimiter :=
  mkLimiter (1 / Qmax qps 0.1) 0.

(** [_RateLimiter.wait()] entered when the clock reads [now]; [late] is the
    time that passes, beyond the sleep asked for, until the clock is read
    again at line 26. The result is the limiter with its new [_last]. *)
Definition wait (now late : Q) (L : RateLimiter) : RateLimiter :=
  let dt := (now - _last L)%Q in
  let after_sleep :=
    if Qltb dt (min_interval L) then (now + (min_interval L - dt))%Q else now in
  mkLimiter (min_interval L) (after_sleep + late).

(** A sequence of acquisitions on one limiter. Each is given by [gap], the
    time from the previous grant (or from [clock] at the start) until this
    caller holds the lock and reads the clock, and by [late]. The result is
    the grant timestamps, the successive values of [_last]. *)
Fixpoint acquire_all (L : RateLimiter) (clock : Q) (acqs : list (Q * Q)) : list Q :=
  match acqs with
  | [] => []
  | (gap, late) :: rest =>
      let L' := wait (clock + gap) late L in
      _last L' :: acquire_all L' (_last L') rest
  end.

(** What one [_sess.get] ended with, after the adapter's own retries. *)
Inductive JsonBody (Datum : Type) :=
| BodyInvalid                         (* r.json() raises *)
| BodyNotDict                         (* j.get raises AttributeError *)
| BodyDict (data : option (list Datum)). (* j.get("data") *)
Arguments BodyInvalid {Datum}.
Arguments BodyNotDict {Datum}.
Arguments BodyDict {Datum} data.

Inductive HttpOutcome (Datum : Type) :=
| HttpSSLError                        (* requests.exceptions.SSLError *)
| HttpOtherError                      (* any other exception *)
| HttpResponse (status_code : Z) (body : JsonBody Datum).
Arguments HttpSSLError {Datum}.
Arguments HttpOtherError {Datum}.
Arguments HttpResponse {Datum} status_code body.

(** [r.raise_for_status()] raises for 4xx and 5xx. *)
Definition raise_for_status (status_code : Z) : bool :=
  (400 <=? status_code) && (status_code <? 600).

(** Lines 68-73 and 78-82: the status test, [raise_for_status], [r.json()]
    and [j.get("data", []) or []]. *)
Definition read_response {Datum} (status_code : Z) (body : JsonBody Datum)
    : Res (list Datum) :=
  if status_code =? 402 then Ok []
  else if raise_for_status status_code then Raise
  else
    match body with
    | BodyInvalid | BodyNotDict => Raise
    | BodyDict None => Ok []
    | BodyDict (Some d) => Ok d
    end.

(** [get_data(...)]: [first] is the request of line 66, [second] the one of
    line 77 (verify=False). An exception inside the [try] is handled by the
    first matching [except]; one raised inside a handler leaves the
    function. [_limiter.wait()] only delays the call. *)
Definition get_data {Datum} (first second : HttpOutcome Datum) : Res (list Datum) :=
  match first with
  | HttpSSLError =>
      match second with
      | HttpResponse status_code body => read_response status_code body
      | _ => Raise
      end
  | HttpOtherError => Ok []
  | HttpResponse status_code body =>
      match read_response status_code body with
      | Ok d => Ok d
      | Raise => Ok []
      end
  end.

(* ===================================================================== *)
(** ** Vocabulary of the properties, and the data they are tried on       *)
(* ===================================================================== *)

(** The two caps as one predicate on the counter table. *)
Definition quota_ok (cfg : Config) (m : gmap string Z) : Prop :=
  (∀ id, get_count m id ≤ MAX_SIGNAL_PER_STOCK cfg)
  ∧ sum_values m ≤ MAX_SIGNAL_TOTAL cfg.

(** Stand-ins for the digest and for float formatting, used where a
    statement is evaluated on concrete data. *)
Definition test_hash (s : string) : string := "sha256:" +:+ s.

Definition test_format_f (digits : nat) (x : Q) : string :=
  pretty (Qnum x) +:+ "/" +:+ pretty (Zpos (Qden x)).

(** The webhook [send_discord_message] posts to, if any. *)
Definition webhook_of (cfg : Config) (webhook_url : string) : string :=
  str_or webhook_url (str_or (DISCORD_WEBHOOK cfg) (ENV_DISCORD_WEBHOOK cfg)).

(** What a call that passes the dedup gate leaves behind: the current time
    recorded for the hash, and the message delivered when a webhook is set
    and accepts it. *)
Definition recorded_and_sent hash cfg message url now post (w w' : World) : Prop :=
  _seen w' = <[hash message := now]> (_seen w)
  ∧ discord w' =
      (if str_truthy (webhook_of cfg url) && post_accepted post
       then discord w ++ [message] else discord w)
  ∧ sent_today w' = sent_today w ∧ signals w' = signals w.

(** C2 as the specification states it: the call changes nothing when the
    table holds, for the message's hash, a timestamp less than
    DEDUP_WINDOW_SEC old; otherwise it records the current time for the
    hash. *)
Definition dedup_as_stated hash cfg message url now post (w : World) : Prop :=
  let w' := send_discord_message hash cfg message url now post w in
  let recent :=
    ∃ last, _seen w !! hash message = Some last
            ∧ (now - last < inject_Z (DEDUP_WINDOW_SEC cfg))%Q in
  (recent → w' = w) ∧ (¬ recent → _seen w' !! hash message = Some now).

(** Twenty quiet sessions, then a close of 100 on doubled volume: the
    averages cross upwards, the volume is twice its 20-day average and the
    close is above every one of the 20 closes before it. *)
Definition breakout_frame : DataFrame :=
  _normalize_price_df
    (replicate 15 (10%Q, 90%Q) ++ replicate 5 (9%Q, 90%Q) ++ [(100%Q, 190%Q)]).

Definition config_with_webhook : Config :=
  mkConfig 4 "https://discord.example/hook" "" 20 200 1200.

(** An evaluation of the breakout frame while the webhook is down. *)
Definition env_sink_down : Env :=
  mkEnv (Ok (Some breakout_frame)) (Ok None) (Ok []) 1762214400 PostRaises true.


(** The three sub-conditions, as the specification words them. *)
Definition golden_cross (yesterday today : Bar) : Prop :=
  (MA5 yesterday < MA20 yesterday)%Q ∧ (MA20 today < MA5 today)%Q.

Definition volume_surge (today : Bar) : Prop :=
  (Volume_avg today * 1.8 < volume today)%Q.

(** The current close exceeds the close of each of the 20 observations
    before the current one. *)
Definition breaks_past20_high (l : list Bar) (today : Bar) : Prop :=
  ∀ i b, (length l - 21 ≤ i < length l - 1)%nat → l !! i = Some b →
         (close b < close today)%Q.

(** C5 as the specification states it, on a frame with [today] its last
    row and [yesterday] the one before: triggered exactly when the three
    conditions hold, and triggered in the scenario of crossover, volume at
    twice its average and breakout. *)
Definition technical_as_stated (df : DataFrame) : Prop :=
  ∀ today yesterday,
    bars df !! (length (bars df) - 1)%nat = Some today →
    bars df !! (length (bars df) - 2)%nat = Some yesterday →
    (triggered (strategy_technical (Some df)) = true
     ↔ golden_cross yesterday today
       ∧ volume_surge today
       ∧ breaks_past20_high (bars df) today)
    ∧ (golden_cross yesterday today →
       (volume today == 2 * Volume_avg today)%Q →
       breaks_past20_high (bars df) today →
       triggered (strategy_technical (Some df)) = true).

(** The closes of [breakout_frame] with no volume traded in any session:
    today's volume, 0, is twice its 20-day average, 0. *)
Definition zero_volume_frame : DataFrame :=
  _normalize_price_df
    (replicate 15 (10%Q, 0%Q) ++ replicate 5 (9%Q, 0%Q) ++ [(100%Q, 0%Q)]).

(** The closes of [breakout_frame] on a volume of 90 in every session, in a
    frame that lacks the [Volume_avg] column: what [strategy_technical] is
    given when a caller passes a frame that did not go through
    [_normalize_price_df]. *)
Definition no_volume_avg_frame : DataFrame :=
  mkDataFrame
    (bars (_normalize_price_df
             (replicate 15 (10%Q, 90%Q) ++ replicate 5 (9%Q, 90%Q) ++ [(100%Q, 90%Q)])))
    false.

(** Three days of net buying of 600, 500 and 500 lots by foreign investors,
    among 20 days of fund-flow rows. *)
Definition fund_buying : list FundRow :=
  replicate 17 (mkFundRow (Some 0%Q) (Some 0%Q) (Some 0%Q))
    ++ [ mkFundRow (Some 600%Q) None (Some 0%Q);
         mkFundRow (Some 500%Q) (Some 0%Q) (Some 0%Q);
         mkFundRow (Some 500%Q) (Some 0%Q) (Some 0%Q) ].

(** Twenty flat sessions. *)
Definition flat20_frame : DataFrame :=
  _normalize_price_df (replicate 20 (10%Q, 90%Q)).

(** The candidate has a known price strictly below the ceiling. *)
Definition quoted_below (max_price : Q) (price_map : gmap string QuoteInfo)
    (c : Candidate) : Prop :=
  ∃ p, price_map !! c.1 = Some (Some p) ∧ (p < max_price)%Q.

(** A listing with an ETF whose code ends in a letter. *)
Definition listing_with_etf : list Candidate :=
  [("00632R", "T50 Inverse"); ("2330", "TSMC"); ("2317", "Hon Hai"); ("3008", "Largan")].

(** Batched quotes: TSMC and Hon Hai on .TW, Largan above the ceiling. *)
Definition quotes_tw : gmap string QuoteInfo :=
  {[ "2330" := Some 1000%Q; "2317" := Some 180%Q; "3008" := Some 2500%Q ]}.

Definition mock_quote_batch (ids : list string) (suffix : string)
    : Res (gmap string QuoteInfo) :=
  if decide (suffix = ".TW") then Ok quotes_tw else Ok ∅.

Definition no_single_quote (sid suffix : string) : option Q := None.

(** C8 as the specification states it: the first [limit] input candidates. *)
Definition passthrough_returns_input get_quote_batch get_latest_close_fast
    (max_price : Q) (max_checks : Z) (stocks : list Candidate) (limit : Z) : Prop :=
  0 < limit →
  batched_tier get_quote_batch max_price limit (candidates stocks) = Raise
  ∨ batched_tier get_quote_batch max_price limit (candidates stocks) = Ok [] →
  serial_walk get_latest_close_fast max_price max_checks limit (candidates stocks) [] 0
    = [] →
  get_stocks_under_1500 get_quote_batch get_latest_close_fast max_price max_checks
    stocks (Some limit) = take (Z.to_nat limit) stocks.

(** Each timestamp of the list is at least [d] after the one before it. *)
Fixpoint spaced (d : Q) (l : list Q) : Prop :=
  match l with
  | a :: rest =>
      match rest with
      | b :: _ => (a + d <= b)%Q ∧ spaced d rest
      | [] => True
      end
  | [] => True
  end.

(** Time only moves forward: no caller reads the clock before the previous
    grant, and the clock read at line 26 is not before the end of the
    sleep. *)
Definition forward (acqs : list (Q * Q)) : Prop :=
  Forall (λ a, (0 <= a.1)%Q ∧ (0 <= a.2)%Q) acqs.

(** C9 as the specification states it: spacing of 1/q for every q. *)
Definition spaced_by_qps (q clock : Q) (acqs : list (Q * Q)) : Prop :=
  forward acqs → spaced (1 / q) (acquire_all (RateLimiter_init q) clock acqs).

(* ===================================================================== *)
(** ** Further vocabulary: the ledger                                      *)
(* ===================================================================== *)

(** The clock reading an action hands to the notifier. *)
Definition action_clock (a : Action) : Q :=
  match a with
  | Evaluate _ _ e => env_now e
  | Summary _ now _ => now
  end.

(** The lines [print_terminal] is handed by the summary pushes of a list of
    actions: the summaries that are not empty, in order. *)
Definition summary_lines (acts : list Action) : list string :=
  omap (λ a, match a with
             | Summary msg _ _ => if str_truthy msg then Some msg else None
             | Evaluate _ _ _ => None
             end) acts.

(* ===================================================================== *)
(** ** Further vocabulary: the configured rate                             *)
(* ===================================================================== *)



(* ===================================================================== *)
(** ** Further vocabulary: the strategies                                  *)
(* ===================================================================== *)

(** The net institutional flow of one day: the three categories added, a
    missing value counted as 0. *)
Definition net_flow (r : FundRow) : Q :=
  (default 0 (Foreign_Investor r) + default 0 (Investment_Trust r)
   + default 0 (Dealer_self r))%Q.

(** The item is classified positive, in any letter case. *)
Definition is_positive (n : NewsItem) : Prop := upper (sentiment n) = "POSITIVE".

(* ===================================================================== *)
(** ** utils/stock_list.py: the universe acquisition chain                 *)
(* ===================================================================== *)

(** [needle in hay] on strings. *)
Fixpoint str_in (needle hay : string) : bool :=
  String.prefix needle hay
  || match hay with
     | EmptyString => false
     | String _ rest => str_in needle rest
     end.

(** A row of the TWSE listing, by the three keys the loop reads; [None] is a
    key that is missing or null. *)
Record TwseRow := mkTwseRow {
  row_code : option string;     (* 有價證券代號 *)
  row_name : option string;     (* 有價證券名稱 *)
  row_market : option string    (* 市場別 *)
}.

(** What [r.json()] gives: it raises, or it is a list of rows, or it is
    JSON of another shape. *)
Inductive TwseJson :=
| TwseNotJson
| TwseRows (rows : list TwseRow)
| TwseOtherJson.

(** What one [requests.get] of the listing ended with. *)
Inductive TwseOutcome :=
| TwseSSLError
| TwseOtherError
| TwseResponse (status_code : Z) (body : TwseJson).

Section TwseFetch.

(** [str.strip()]. *)
Variable strip : string → string.

(** The loop of lines 103-108 on one row. *)
Definition twse_keep (row : TwseRow) : option Candidate :=
  let code := strip (default "" (row_code row)) in
  let name := strip (default "" (row_name row)) in
  let market := strip (default "" (row_market row)) in
  if isdigit code && str_in "上市" market then Some (code, name) else None.

(** Lines 99-109, from the decoded response on. *)
Definition twse_rows (body : TwseJson) : list Candidate :=
  match body with
  | TwseRows rows => omap twse_keep rows
  | TwseNotJson | TwseOtherJson => []
  end.

(** [_fetch_from_twse_openapi()]: [first] is the request of line 93,
    [second] the one of line 96 (verify=False). The whole body stands in a
    [try] whose [except Exception] returns the empty list, the SSL retry
    included. *)
Definition _fetch_from_twse_openapi (first second : TwseOutcome) : list Candidate :=
  match first with
  | TwseSSLError =>
      match second with
      | TwseResponse status_code body =>
          if raise_for_status status_code then [] else twse_rows body
      | _ => []
      end
  | TwseOtherError => []
  | TwseResponse status_code body =>
      if raise_for_status status_code then [] else twse_rows body
  end.

End TwseFetch.

(** The list of lines 133-144. *)
Definition builtin_stocks : list Candidate :=
  [ ("2330", "台積電"); ("2317", "鴻海"); ("2454", "聯發科"); ("2303", "聯電");
    ("2881", "富邦金"); ("2882", "國泰金"); ("2603", "長榮"); ("2609", "陽明");
    ("2615", "萬海"); ("1303", "南亞") ].

(** [get_all_stocks(use_cache)]. [cached] is what [_load_cache_today()]
    returns, [finmind] what [_fetch_from_finmind()] returns and [twse] what
    [_fetch_from_twse_openapi()] returns if it is called. The result is the
    list returned and the list handed to [_save_cache], if any. *)
Definition get_all_stocks (use_cache : bool) (cached : option (list Candidate))
    (finmind twse : list Candidate) : list Candidate * option (list Candidate) :=
  match (if use_cache then cached else None) with
  | Some c => (c, None)
  | None =>
      let stocks := match finmind with [] => twse | _ => finmind end in
      match stocks with
      | [] => (builtin_stocks, None)
      | _ => (stocks, Some stocks)
      end
  end.

(* ===================================================================== *)
(** ** Further vocabulary: the prefetch filter                             *)
(* ===================================================================== *)

(** The price the serial tier sees for a candidate: the .TW quote, or the
    .TWO quote when there is none. *)
Definition serial_quote (get_latest_close_fast : string → string → option Q)
    (c : Candidate) : option Q :=
  match get_latest_close_fast c.1 ".TW" with
  | None => get_latest_close_fast c.1 ".TWO"
  | Some p => Some p
  end.

Definition probed_below (get_latest_close_fast : string → string → option Q)
    (max_price : Q) (c : Candidate) : Prop :=
  ∃ p, serial_quote get_latest_close_fast c = Some p ∧ (p < max_price)%Q.

Definition digit_id (c : Candidate) : Prop := isdigit c.1 = true.

(* ===================================================================== *)
(** ** modules/fetch_price.py: the single-quote lookup                     *)
(* ===================================================================== *)

(** What the chart request for one symbol gives: nothing usable (a failed
    request, a body without a result), or the list of daily closes, [None]
    for a day without one. *)
Inductive YahooChart :=
| ChartFailed
| ChartCloses (closes : list (option Q)).

(** The loop of lines 163-166 over the list it is given (already
    reversed): the first value that is not [None]. *)
Fixpoint first_close (closes : list (option Q)) : option Q :=
  match closes with
  | [] => None
  | Some v :: _ => Some v
  | None :: rest => first_close rest
  end.

(** The last-price cache: per stock id the date and close of the file
    cache/lastprice/<id>.json. A file that cannot be read as such is one that
    is not there. *)
Definition PriceCache : Type := gmap string (string * Q).

Section LatestClose.

(** The chart the upstream serves for a symbol. *)
Variable yahoo : string → YahooChart.
(** [datetime.today()] as a date string. *)
Variable today : string.

Definition _yahoo_latest_close (symbol : string) : option Q :=
  match yahoo symbol with
  | ChartFailed => None
  | ChartCloses closes => first_close (reverse closes)
  end.

(** [get_latest_close_fast(stock_id, prefer_suffix, use_cache=...)];
    [write_ok] says whether writing the cache file succeeds. The result is
    the price returned and the cache left behind. *)
Definition get_latest_close_fast (write_ok : bool) (stock_id prefer_suffix : string)
    (use_cache : bool) (cache : PriceCache) : option Q * PriceCache :=
  let fresh :=
    if use_cache
    then match cache !! stock_id with
         | Some (date, c) => if decide (date = today) then Some c else None
         | None => None
         end
    else None in
  match fresh with
  | Some c => (Some c, cache)
  | None =>
      let fallback_suffix := if decide (prefer_suffix = ".TW") then ".TWO" else ".TW" in
      let price :=
        match _yahoo_latest_close (stock_id +:+ prefer_suffix) with
        | Some p => Some p
        | None => _yahoo_latest_close (stock_id +:+ fallback_suffix)
        end in
      match price with
      | Some p => (Some p, if write_ok then <[stock_id := (today, p)]> cache else cache)
      | None => (None, cache)
      end
  end.

End LatestClose.

(* ===================================================================== *)
(** ** main.py: one round of the scan loop                                 *)
(* ===================================================================== *)

(** [[l[i:i+size] for i in range(0, len(l), size)]] for a positive [size];
    [fuel] bounds the number of slices. *)
Fixpoint slices {A} (fuel size : nat) (l : list A) : list (list A) :=
  match fuel with
  | O => []
  | S fuel' =>
      match l with
      | [] => []
      | _ => take size l :: slices fuel' size (drop size l)
      end
  end.

(** The slices a loop [for i in range(0, len(l), size)] takes with
    [l[i:i+size]] (the waves of main.py line 121, the chunks of
    fetch_price.py line 221): [range] raises for a step of 0 and is empty for
    a negative step. *)
Definition slices_by {A} (size : Z) (l : list A) : Res (list (list A)) :=
  if size =? 0 then Raise
  else if size <? 0 then Ok []
  else Ok (slices (length l) (Z.to_nat size) l).

Section ScanRound.

Variable _hash_msg : string → string.
Variable format_f : nat → Q → string.
Variable cfg : Config.

(** [await asyncio.gather] of one wave: the coroutines of [process_stock] have
    no [await] inside, so each runs from start to end when the loop first
    steps it, in the order of the wave. *)
Definition gather (wave : list (string * string * Env)) (w : World) : World :=
  foldl (λ w t, process_stock _hash_msg format_f cfg t.1.1 t.1.2 t.2 w) w wave.

(** Lines 119-133 of [scan_loop]: the waves of one round, then the summary
    push. [tasks] pairs each candidate with what its collaborators return;
    [summary] is the text of [today_summary()]. *)
Definition scan_round (batch_size : Z) (tasks : list (string * string * Env))
    (summary : string) (now : Q) (post : PostOutcome) (w : World) : Res World :=
  match slices_by batch_size tasks with
  | Raise => Raise
  | Ok ws => Ok (safe_send _hash_msg cfg summary now post (foldl (λ w wave, gather wave w) w ws))
  end.

End ScanRound.

(* ===================================================================== *)
(** ** modules/news_linker.py                                              *)
(* ===================================================================== *)

(** A news item by the two keys the linker reads; [None] is a key that is
    missing or null. *)
Record NewsRaw := mkNewsRaw {
  news_title : option string;
  news_content : option string
}.

Section NewsLinker.

(** [s.lower().strip()]. *)
Variable lower_strip : string → string.

Definition _clean (s : option string) : string := lower_strip (default "" s).

(** The test of lines 29-35 on one item. *)
Definition news_hit (kws : list string) (n : NewsRaw) : bool :=
  existsb (λ kw, str_in kw (_clean (news_title n)) || str_in kw (_clean (news_content n)))
    kws.

(** [link_news_to_stock(news_list, stock_id, aliases_map)]. *)
Definition link_news_to_stock (news_list : list NewsRaw) (stock_id : string)
    (aliases_map : gmap string (list string)) : list NewsRaw :=
  let kws := default [] (aliases_map !! stock_id) in
  filter (λ n, news_hit kws n = true) news_list.

End NewsLinker.

(* ===================================================================== *)
(** ** modules/fetch_price.py: the batched quote lookup                    *)
(* ===================================================================== *)

(** An entry of the quote response, by the keys the loop reads; [None] is a
    key that is missing or null. *)
Record QuoteItem := mkQuoteItem {
  q_symbol : string;
  regularMarketPrice : option Q;
  regularMarketPreviousClose : option Q;
  regularMarketVolume : option Z;
  averageDailyVolume3Month : option Z;
  averageDailyVolume10Day : option Z
}.

(** A value of the returned map. *)
Record Quote := mkQuote {
  price : Q;
  vol : Z;
  avgvol3m : Z;
  avgvol10d : Z
}.

(** [sym.split(".")[0] if "." in sym else sym]. *)
Fixpoint before_dot (sym : string) : string :=
  match sym with
  | EmptyString => EmptyString
  | String c rest => if decide (c = "."%char) then EmptyString else String c (before_dot rest)
  end.

(** Lines 234-243: the quote built from an item, if it has a price. *)
Definition quote_of (item : QuoteItem) : option Quote :=
  let price :=
    match regularMarketPrice item with
    | Some p => Some p
    | None => regularMarketPreviousClose item
    end in
  match price with
  | Some p =>
      Some (mkQuote p (default 0 (regularMarketVolume item))
              (default 0 (averageDailyVolume3Month item))
              (default 0 (averageDailyVolume10Day item)))
  | None => None
  end.

(** Lines 230-250: one item written into [out]. *)
Definition add_item (out : gmap string Quote) (item : QuoteItem) : gmap string Quote :=
  match quote_of item with
  | Some q => <[before_dot (q_symbol item) := q]> out
  | None => out
  end.

Section QuoteBatch.

(** The request for one chunk of symbols: the entries of the response, or
    an exception (transport, status, JSON). *)
Variable fetch_quotes : list string → Res (list QuoteItem).

(** Lines 222-253: one chunk. A chunk whose request fails is skipped. *)
Definition add_chunk (suffix : string) (out : gmap string Quote) (chunk : list string)
    : gmap string Quote :=
  match fetch_quotes ((λ sid, sid +:+ suffix) <$> chunk) with
  | Ok items => foldl add_item out items
  | Raise => out
  end.

(** [get_quote_batch(stock_ids, suffix, batch_size=...)]. *)
Definition get_quote_batch (stock_ids : list string) (suffix : string) (batch_size : Z)
    : Res (gmap string Quote) :=
  match stock_ids with
  | [] => Ok ∅
  | _ =>
      match slices_by batch_size stock_ids with
      | Raise => Raise
      | Ok chunks => Ok (foldl (add_chunk suffix) ∅ chunks)
      end
  end.

End QuoteBatch.

(** The quotes as [get_stocks_under_1500] reads them: the price of each. *)
Definition as_price_map (out : gmap string Quote) : gmap string QuoteInfo :=
  (λ q, Some (price q)) <$> out.

(* ===================================================================== *)
(** ** The price and fund-flow fetchers over the FinMind client            *)
(* ===================================================================== *)

Section Fetchers.

(** A record of a FinMind dataset. *)
Variable Datum : Type.
(** [_normalize_price_df(pd.DataFrame(data))] on the records fetched: a
    frame, [None] when a required column is missing, or an exception of
    pandas. *)
Variable normalize : list Datum → Res (option DataFrame).
(** Lines 73-124 of fetch_fundamental.py on the records fetched: the frame
    of net flows, or [None] when there is no date column. *)
Variable build_flows : list Datum → Res (option (list FundRow)).

(** [get_price_with_ma(stock_id, years, use_cache)]. [cached] is the frame
    lines 110-117 read from the cache file, [None] when the cache is not
    used, not there or not readable; [first] and [second] are the requests
    of [get_data]. The result is what the call returns or raises, and the
    frame it writes to the cache file, if any. *)
Definition get_price_with_ma (cached : option DataFrame)
    (first second : HttpOutcome Datum) : Res (option DataFrame) * option DataFrame :=
  match cached with
  | Some df => (Ok (Some df), None)
  | None =>
      match get_data first second with
      | Raise => (Raise, None)
      | Ok [] => (Ok None, None)
      | Ok data =>
          match normalize data with
          | Raise => (Raise, None)
          | Ok None => (Ok None, None)
          | Ok (Some df) => (Ok (Some df), Some df)
          end
      end
  end.

(** [get_fund_flow(stock_id)]. [enabled] is FUND_FLOW_ENABLED, [cached] the
    frame lines 53-60 read from the cache file, [None] when it is not there,
    empty, without a date column or not readable. *)
Definition get_fund_flow (enabled : bool) (cached : option (list FundRow))
    (first second : HttpOutcome Datum)
    : Res (option (list FundRow)) * option (list FundRow) :=
  if negb enabled then (Ok None, None)
  else
    match cached with
    | Some df => (Ok (Some df), None)
    | None =>
        match get_data first second with
        | Raise => (Raise, None)
        | Ok [] => (Ok None, None)
        | Ok data =>
            match build_flows data with
            | Raise => (Raise, None)
            | Ok None => (Ok None, None)
            | Ok (Some out) => (Ok (Some out), Some out)
            end
        end
    end.

End Fetchers.

(** The quote [q] under [sid] stems from an entry that a request for one of
    the [chunks] returned. *)
Definition quoted_by (fetch_quotes : list string → Res (list QuoteItem))
    (suffix : string) (chunks : list (list string)) (sid : string) (q : Quote) : Prop :=
  ∃ chunk items item,
    chunk ∈ chunks
    ∧ fetch_quotes ((λ s, s +:+ suffix) <$> chunk) = Ok items
    ∧ item ∈ items
    ∧ before_dot (q_symbol item) = sid
    ∧ quote_of item = Some q.

(* ===================================================================== *)
(** * Properties                                                           *)
(* ===================================================================== *)

(** ** Comparisons on [Q] *)

Lemma Qltb_lt (x y : Q) : Qltb x y = true ↔ (x < y)%Q.
Proof. unfold Qltb, Qlt. apply Z.ltb_lt. Qed.

Lemma Qltb_ge (x y : Q) : Qltb x y = false ↔ (y <= x)%Q.
Proof. unfold Qltb, Qle. apply Z.ltb_ge. Qed.

(** ** The quota counters *)

Lemma sum_values_empty : sum_values ∅ = 0.
Proof. unfold sum_values. apply map_fold_empty. Qed.

Section MainFacts.

Variable _hash_msg : string → string.
Variable format_f : nat → Q → string.
Variable cfg : Config.

(** The notifier touches the dedup table and the webhook only. *)
Lemma send_discord_message_frame message url now post w :
  let w' := send_discord_message _hash_msg cfg message url now post w in
  sent_today w' = sent_today w ∧ signals w' = signals w ∧ terminal w' = terminal w.
Proof.
  unfold send_discord_message.
  repeat case_match; simpl; auto.
Qed.

Lemma safe_send_frame msg now post w :
  let w' := safe_send _hash_msg cfg msg now post w in
  sent_today w' = sent_today w ∧ signals w' = signals w.
Proof.
  unfold safe_send. repeat case_match; simpl; auto.
  destruct (send_discord_message_frame msg (DISCORD_WEBHOOK cfg) now post
              (add_terminal msg w)) as (? & ? & ?).
  simpl in *. auto.
Qed.

(** A caller that passes [pos_threshold], as line 58 of main.py does, gets
    the TypeError of the third call. *)
Lemma run_all_strategies_raises df fund news p :
  run_all_strategies format_f df fund news (Some p) = Raise.
Proof. reflexivity. Qed.

(** The exit an evaluation takes, read off the collaborators' outcomes: it
    never gets past the call of line 58. *)
Lemma process_stock_run_exit sid sname e w :
  (process_stock_run _hash_msg format_f cfg sid sname e w).1 =
    if (MAX_SIGNAL_PER_STOCK cfg <=? get_count (sent_today w) sid)
       || (MAX_SIGNAL_TOTAL cfg <=? sum_values (sent_today w))
    then ReturnQuota
    else match env_price e with
         | Raise => Caught GetPriceWithMa
         | Ok None => ReturnNoHistory
         | Ok (Some df) =>
             if (length (bars df) <? 20)%nat then ReturnNoHistory
             else match env_fund e, env_news e with
                  | Raise, _ => Caught GetFundFlow
                  | Ok _, Raise => Caught LinkNews
                  | Ok _, Ok _ => Caught RunAllStrategies
                  end
         end.
Proof.
  unfold process_stock_run.
  destruct (_ || _); [done|].
  destruct (env_price e) as [[df|]|]; try done.
  destruct (_ <? _)%nat; [done|].
  destruct (env_fund e) as [fund|]; [|done].
  destruct (env_news e) as [news|]; [|done].
  by rewrite run_all_strategies_raises.
Qed.

(** Whatever exit it takes, an evaluation leaves the world as it found
    it. *)
Lemma process_stock_unchanged sid sname e w :
  process_stock _hash_msg format_f cfg sid sname e w = w.
Proof.
  unfold process_stock, process_stock_run.
  destruct (_ || _); [done|].
  destruct (env_price e) as [[df|]|]; try done.
  destruct (_ <? _)%nat; [done|].
  destruct (env_fund e) as [fund|]; [|done].
  destruct (env_news e) as [news|]; [|done].
  by rewrite run_all_strategies_raises.
Qed.

End MainFacts.

(** ** Quota enforcement (C1) *)

Lemma quota_ok_empty cfg :
  0 ≤ MAX_SIGNAL_PER_STOCK cfg → 0 ≤ MAX_SIGNAL_TOTAL cfg → quota_ok cfg ∅.
Proof.
  intros Hp Ht. split.
  - intros id. unfold get_count. by rewrite lookup_empty.
  - by rewrite sum_values_empty.
Qed.

Lemma step_sent_today hash fmt cfg a w :
  sent_today (step hash fmt cfg a w) = sent_today w
  ∧ signals (step hash fmt cfg a w) = signals w.
Proof.
  destruct a as [sid sname e | msg now post]; simpl.
  - by rewrite process_stock_unchanged.
  - apply safe_send_frame.
Qed.

Lemma quota_ok_step hash fmt cfg a w :
  quota_ok cfg (sent_today w) → quota_ok cfg (sent_today (step hash fmt cfg a w)).
Proof.
  intros H. by destruct (step_sent_today hash fmt cfg a w) as [-> _].
Qed.

Lemma run_snoc hash fmt cfg acts a :
  run hash fmt cfg (acts ++ [a]) = step hash fmt cfg a (run hash fmt cfg acts).
Proof. unfold run. by rewrite foldl_snoc. Qed.

(** C1. With caps that are not negative, in every process lifetime the
    per-candidate counter never exceeds MAX_SIGNAL_PER_STOCK and the total
    never exceeds MAX_SIGNAL_TOTAL after any completed action, and every
    action keeps the two bounds from whatever table satisfies them; and a
    call of [process_stock] made when the candidate's counter or the total
    has reached its cap leaves through the return of line 42 with the world
    unchanged: no notification, no log row, no counter change. *)
Theorem quota_enforced hash fmt cfg :
  0 ≤ MAX_SIGNAL_PER_STOCK cfg →
  0 ≤ MAX_SIGNAL_TOTAL cfg →
  (∀ acts,
     let w := run hash fmt cfg acts in
     (∀ id, get_count (sent_today w) id ≤ MAX_SIGNAL_PER_STOCK cfg)
     ∧ sum_values (sent_today w) ≤ MAX_SIGNAL_TOTAL cfg)
  ∧ (∀ a w,
       quota_ok cfg (sent_today w) → quota_ok cfg (sent_today (step hash fmt cfg a w)))
  ∧ (∀ sid sname e w,
       MAX_SIGNAL_PER_STOCK cfg ≤ get_count (sent_today w) sid
       ∨ MAX_SIGNAL_TOTAL cfg ≤ sum_values (sent_today w) →
       process_stock_run hash fmt cfg sid sname e w = (ReturnQuota, w)
       ∧ process_stock hash fmt cfg sid sname e w = w).
Proof.
  intros Hp Ht. split; [|split].
  - intros acts. cbv zeta. change (quota_ok cfg (sent_today (run hash fmt cfg acts))).
    induction acts as [|a acts IH] using rev_ind.
    + by apply quota_ok_empty.
    + rewrite run_snoc. by apply quota_ok_step.
  - intros a w. apply quota_ok_step.
  - intros sid sname e w Hcap.
    assert (process_stock_run hash fmt cfg sid sname e w = (ReturnQuota, w)) as Hrun.
    { unfold process_stock_run.
      assert ((MAX_SIGNAL_PER_STOCK cfg <=? get_count (sent_today w) sid)
              || (MAX_SIGNAL_TOTAL cfg <=? sum_values (sent_today w)) = true) as ->.
      { apply orb_true_iff. destruct Hcap; [left | right]; by apply Z.leb_le. }
      done. }
    split; [exact Hrun|]. unfold process_stock. by rewrite Hrun.
Qed.

(** The witness of C1: two evaluations of the breakout frame under the
    default caps leave the table empty, and an evaluation of a candidate
    already at its cap of 20 changes nothing. *)
Lemma quota_enforced_witness :
  let e := mkEnv (Ok (Some breakout_frame)) (Ok None) (Ok [])
             1762214400 (PostStatus 204) true in
  let w := run test_hash test_format_f default_config
             [Evaluate "2330" "TSMC" e; Evaluate "2330" "TSMC" e] in
  let full := set_sent_today (λ _, {[ "2330" := 20 ]}) world0 in
  (0 ≤ MAX_SIGNAL_PER_STOCK default_config ∧ 0 ≤ MAX_SIGNAL_TOTAL default_config
   ∧ MAX_SIGNAL_PER_STOCK default_config ≤ get_count (sent_today full) "2330")
  ∧ get_count (sent_today w) "2330" = 0
  ∧ ((∀ id, get_count (sent_today w) id ≤ MAX_SIGNAL_PER_STOCK default_config)
     ∧ sum_values (sent_today w) ≤ MAX_SIGNAL_TOTAL default_config)
  ∧ process_stock_run test_hash test_format_f default_config "2330" "TSMC" e full
    = (ReturnQuota, full).
Proof.
  cbv zeta.
  assert (0 ≤ MAX_SIGNAL_PER_STOCK default_config) as H1 by (simpl; lia).
  assert (0 ≤ MAX_SIGNAL_TOTAL default_config) as H2 by (simpl; lia).
  assert (MAX_SIGNAL_PER_STOCK default_config
          ≤ get_count (sent_today (set_sent_today (λ _, {[ "2330" := 20 ]}) world0)) "2330")
    as H3 by (vm_compute; discriminate).
  split; [by repeat split|]. split; [vm_compute; reflexivity|].
  split.
  - exact (proj1 (quota_enforced test_hash test_format_f default_config H1 H2) _).
  - exact (proj1 (proj2 (proj2 (quota_enforced test_hash test_format_f default_config H1 H2))
                   "2330" "TSMC" _ _ (or_introl H3))).
Defined.

(** ** The dedup window (C2) *)

Lemma send_discord_message_suppressed hash cfg message url now post w :
  (now - default 0%Q (_seen w !! hash message) < inject_Z (DEDUP_WINDOW_SEC cfg))%Q →
  send_discord_message hash cfg message url now post w = w.
Proof.
  intros Hlt. unfold send_discord_message.
  apply Qltb_lt in Hlt. by rewrite Hlt.
Qed.

Lemma send_discord_message_passes hash cfg message url now post w :
  (inject_Z (DEDUP_WINDOW_SEC cfg) <= now - default 0%Q (_seen w !! hash message))%Q →
  recorded_and_sent hash cfg message url now post w
    (send_discord_message hash cfg message url now post w).
Proof.
  intros Hge. unfold send_discord_message, recorded_and_sent, webhook_of.
  apply Qltb_ge in Hge. rewrite Hge.
  destruct (str_truthy (str_or _ _)); simpl; [|done].
  destruct (post_accepted post); simpl; done.
Qed.

Lemma str_truthy_spec (s : string) : str_truthy s = true ↔ s ≠ "".
Proof. destruct s; simpl; split; (done || congruence). Qed.

(** The webhook is the first non-empty text of the argument, the configured
    one and the environment's. *)
Lemma webhook_resolved cfg url :
  str_truthy (webhook_of cfg url) = true
  ↔ url ≠ "" ∨ DISCORD_WEBHOOK cfg ≠ "" ∨ ENV_DISCORD_WEBHOOK cfg ≠ "".
Proof.
  unfold webhook_of, str_or.
  destruct url as [|c u]; simpl.
  - destruct (DISCORD_WEBHOOK cfg) as [|c' u']; simpl.
    + rewrite str_truthy_spec. split; [auto | intros [?|[?|?]]; done].
    + split; [intros _; right; left; done | done].
  - split; [intros _; left; done | done].
Qed.

Lemma post_accepted_spec (post : PostOutcome) :
  post_accepted post = true ↔ post = PostStatus 200 ∨ post = PostStatus 204.
Proof.
  destruct post as [c|]; simpl.
  - rewrite orb_true_iff, !Z.eqb_eq. split.
    + intros [-> | ->]; auto.
    + intros [[= ->] | [= ->]]; auto.
  - split; [done | intros [?|?]; done].
Qed.

(** What a call that is not suppressed does to the Discord channel. *)
Lemma send_discord_message_delivery hash cfg message url now post w :
  (inject_Z (DEDUP_WINDOW_SEC cfg) <= now - default 0%Q (_seen w !! hash message))%Q →
  let w' := send_discord_message hash cfg message url now post w in
  (url ≠ "" ∨ DISCORD_WEBHOOK cfg ≠ "" ∨ ENV_DISCORD_WEBHOOK cfg ≠ "" →
   post = PostStatus 200 ∨ post = PostStatus 204 →
   discord w' = discord w ++ [message])
  ∧ ((url = "" ∧ DISCORD_WEBHOOK cfg = "" ∧ ENV_DISCORD_WEBHOOK cfg = "")
     ∨ (post ≠ PostStatus 200 ∧ post ≠ PostStatus 204) →
     discord w' = discord w).
Proof.
  intros Hge w'.
  destruct (send_discord_message_passes hash cfg message url now post w Hge)
    as (_ & Hd & _). fold w' in Hd. rewrite Hd. split.
  - intros Hurl Hpost.
    apply webhook_resolved in Hurl. apply post_accepted_spec in Hpost.
    by rewrite Hurl, Hpost.
  - intros [(Hu & Hc & He) | [H200 H204]].
    + destruct (str_truthy (webhook_of cfg url)) eqn:E; [|done].
      apply webhook_resolved in E as [?|[?|?]]; done.
    + destruct (post_accepted post) eqn:E; [|by rewrite andb_false_r].
      apply post_accepted_spec in E as [?|?]; done.
Qed.

(** C2, amended. The age that line 35 tests is the time since the
    timestamp stored for the message's hash, or since time 0.0 when none is
    stored. When that age is less than DEDUP_WINDOW_SEC the call returns the
    world unchanged: nothing delivered, no timestamp written. Otherwise it
    records the current time for the hash, leaves every other part of the
    state alone, and delivers: the message is appended to the channel when a
    webhook is given, configured or in the environment and the post answers
    200 or 204, and the channel is unchanged when there is no webhook or the
    post fails. Hence after a send recorded at [t1], the same text is
    suppressed at any [t2] within the window, and at any [t3] a window or
    more after [t1] it is recorded and delivered again. *)
Theorem dedup_window hash cfg message url now post w :
  ((now - default 0%Q (_seen w !! hash message) < inject_Z (DEDUP_WINDOW_SEC cfg))%Q →
     send_discord_message hash cfg message url now post w = w)
  ∧ ((inject_Z (DEDUP_WINDOW_SEC cfg) <= now - default 0%Q (_seen w !! hash message))%Q →
       let w' := send_discord_message hash cfg message url now post w in
       _seen w' = <[hash message := now]> (_seen w)
       ∧ sent_today w' = sent_today w ∧ signals w' = signals w
       ∧ terminal w' = terminal w
       ∧ (url ≠ "" ∨ DISCORD_WEBHOOK cfg ≠ "" ∨ ENV_DISCORD_WEBHOOK cfg ≠ "" →
          post = PostStatus 200 ∨ post = PostStatus 204 →
          discord w' = discord w ++ [message])
       ∧ ((url = "" ∧ DISCORD_WEBHOOK cfg = "" ∧ ENV_DISCORD_WEBHOOK cfg = "")
          ∨ (post ≠ PostStatus 200 ∧ post ≠ PostStatus 204) →
          discord w' = discord w))
  ∧ (∀ t1 t2 t3 post1 post2 post3,
       let w1 := send_discord_message hash cfg message url t1 post1 w in
       let w2 := send_discord_message hash cfg message url t2 post2 w1 in
       let w3 := send_discord_message hash cfg message url t3 post3 w2 in
       _seen w1 !! hash message = Some t1 →
       (t2 - t1 < inject_Z (DEDUP_WINDOW_SEC cfg))%Q →
       (inject_Z (DEDUP_WINDOW_SEC cfg) <= t3 - t1)%Q →
       w2 = w1
       ∧ _seen w3 !! hash message = Some t3
       ∧ (url ≠ "" → post3 = PostStatus 200 ∨ post3 = PostStatus 204 →
          discord w3 = discord w1 ++ [message])).
Proof.
  split; [|split].
  - apply send_discord_message_suppressed.
  - intros Hge w'.
    destruct (send_discord_message_passes hash cfg message url now post w Hge)
      as (Hs & _ & Hc & Hg).
    destruct (send_discord_message_frame hash cfg message url now post w) as (_ & _ & Ht).
    destruct (send_discord_message_delivery hash cfg message url now post w Hge)
      as [Hyes Hno].
    by repeat split.
  - intros t1 t2 t3 post1 post2 post3 w1 w2 w3 Hrec Hin Hout.
    assert (w2 = w1) as Heq.
    { apply send_discord_message_suppressed. by rewrite Hrec. }
    split; [done|]. subst w3. rewrite Heq.
    assert (inject_Z (DEDUP_WINDOW_SEC cfg)
              <= t3 - default 0%Q (_seen w1 !! hash message))%Q as Hge
      by (by rewrite Hrec).
    destruct (send_discord_message_passes hash cfg message url t3 post3 w1 Hge)
      as (Hs & _).
    destruct (send_discord_message_delivery hash cfg message url t3 post3 w1 Hge)
      as [Hyes _].
    split; [rewrite Hs; apply lookup_insert_eq|].
    intros Hurl Hpost. apply Hyes; auto.
Qed.

(** The counterexample of C2: the first send of a text, whatever the digest
    is. The table holds no timestamp for the hash, so the claim has the time
    recorded; the code reads the missing entry as 0.0 and returns without
    recording or delivering when the clock reads less than the window: at a
    clock of 600 s under the default window of 1200 s, and at the epoch
    time 1762214400 s under a window configured at 2000000000 s. *)
Lemma dedup_as_stated_fails :
  (¬ ∃ hash,
       dedup_as_stated hash default_config "hi" "https://discord.example/hook"
         600 (PostStatus 204) world0)
  ∧ (¬ ∃ hash,
         dedup_as_stated hash
           (mkConfig 4 "https://discord.example/hook" "" 20 200 2000000000)
           "hi" "https://discord.example/hook" 1762214400 (PostStatus 204) world0).
Proof.
  split; intros (hash & _ & H); cbv zeta in H;
    (assert (_seen world0 !! hash "hi" = None) as Hnone by apply lookup_empty);
    (rewrite send_discord_message_suppressed in H;
     [| rewrite Hnone; vm_compute; reflexivity]);
    rewrite Hnone in H;
    (assert (@None Q = Some 600%Q ∨ @None Q = Some 1762214400%Q) as [Habs|Habs];
     [| discriminate..]);
    [left | right]; apply H; by intros (last & [=] & _).
Qed.

(** The witness of C2: three sends of one text at 5000 s, 5600 s and
    6200 s with the default window of 1200 s: the first and the third are
    delivered, the second is not. *)
Lemma dedup_window_witness :
  let send := send_discord_message test_hash default_config "hi"
                "https://discord.example/hook" in
  let w1 := send 5000%Q (PostStatus 204) world0 in
  let w2 := send 5600%Q (PostStatus 204) w1 in
  let w3 := send 6200%Q (PostStatus 204) w2 in
  (_seen w1 !! test_hash "hi" = Some 5000%Q
   ∧ (5600 - 5000 < inject_Z (DEDUP_WINDOW_SEC default_config))%Q
   ∧ (inject_Z (DEDUP_WINDOW_SEC default_config) <= 6200 - 5000)%Q)
  ∧ discord w1 = ["hi"]
  ∧ w2 = w1
  ∧ _seen w3 !! test_hash "hi" = Some 6200%Q
  ∧ discord w3 = ["hi"; "hi"].
Proof.
  cbv zeta.
  assert (_seen (send_discord_message test_hash default_config "hi"
                   "https://discord.example/hook" 5000%Q
                   (PostStatus 204) world0) !! test_hash "hi" = Some 5000%Q) as H1
    by (vm_compute; reflexivity).
  assert (5600 - 5000 < inject_Z (DEDUP_WINDOW_SEC default_config))%Q as H2
    by (vm_compute; reflexivity).
  assert (inject_Z (DEDUP_WINDOW_SEC default_config) <= 6200 - 5000)%Q as H3
    by (vm_compute; discriminate).
  assert (discord (send_discord_message test_hash default_config "hi"
                     "https://discord.example/hook" 5000%Q
                     (PostStatus 204) world0) = ["hi"]) as H4
    by (vm_compute; reflexivity).
  split; [by repeat split|]. split; [exact H4|].
  destruct (proj2 (proj2
              (dedup_window test_hash default_config "hi" "https://discord.example/hook"
                 5000%Q (PostStatus 204) world0))
              5000%Q 5600%Q 6200%Q (PostStatus 204) (PostStatus 204) (PostStatus 204)
              H1 H2 H3) as (Heq & Hseen & Hdisc).
  split; [exact Heq|]. split; [exact Hseen|].
  rewrite Hdisc, H4; [reflexivity | discriminate | by right].
Defined.

(** ** What moves the quota counter (C7) *)


(** ** The technical strategy (C5, C10) *)

Lemma series_max_spec (l : list Q) (m : Q) :
  series_max l = Some m → m ∈ l ∧ ∀ x, x ∈ l → (x <= m)%Q.
Proof.
  revert m. induction l as [|a l IH]; intros m; simpl; [done|].
  destruct (series_max l) as [m'|] eqn:Hm.
  - destruct (IH m' eq_refl) as [Hin Hle].
    destruct (Qltb a m') eqn:Hlt; intros [= <-].
    + apply Qltb_lt in Hlt. split; [by right|].
      intros x [->|Hx]%elem_of_cons; [lra | by apply Hle].
    + apply Qltb_ge in Hlt. split; [by left|].
      intros x [->|Hx]%elem_of_cons; [lra|].
      specialize (Hle x Hx). lra.
  - intros [= <-]. destruct l; [|simpl in Hm; by destruct (series_max l)].
    split; [by left|]. intros x [->|Hx]%elem_of_cons; [lra | by inversion Hx].
Qed.

Lemma series_max_None (l : list Q) : series_max l = None → l = [].
Proof. destruct l; [done|]. simpl. by destruct (series_max l). Qed.

(** [x > series.max()] says that the series has a value and [x] exceeds
    every one. *)
Lemma gt_nan_series_max (x : Q) (l : list Q) :
  gt_nan x (series_max l) = true ↔ l ≠ [] ∧ ∀ y, y ∈ l → (y < x)%Q.
Proof.
  unfold gt_nan. destruct (series_max l) as [m|] eqn:Hm.
  - destruct (series_max_spec l m Hm) as [Hin Hle]. rewrite Qltb_lt. split.
    + intros Hlt. split; [by intros ->; inversion Hin|].
      intros y Hy. specialize (Hle y Hy). lra.
    + intros [_ Hall]. by apply Hall.
  - apply series_max_None in Hm. subst. split; [done | by intros [? _]].
Qed.

(** The observations [iloc[-21:-1]] selects from a frame of [n >= 21] rows
    are those at positions [n-21 .. n-2]. *)
Lemma elem_of_past20 {A} (l : list A) (x : A) :
  (21 ≤ length l)%nat →
  x ∈ py_slice_neg 21 1 l
  ↔ ∃ i, (length l - 21 ≤ i < length l - 1)%nat ∧ l !! i = Some x.
Proof.
  intros Hn. unfold py_slice_neg.
  replace (length l - 1 - (length l - 21))%nat with 20%nat by lia.
  rewrite list_elem_of_lookup. split.
  - intros [j Hj]. pose proof (lookup_lt_Some _ _ _ Hj) as Hlt.
    rewrite length_take, length_drop in Hlt.
    rewrite lookup_take_lt, lookup_drop in Hj by lia.
    exists (length l - 21 + j)%nat. split; [lia | done].
  - intros (i & Hi & Hx). exists (i - (length l - 21))%nat.
    rewrite lookup_take_lt, lookup_drop by lia.
    by replace (length l - 21 + (i - (length l - 21)))%nat with i by lia.
Qed.

Lemma past20_nonempty {A} (l : list A) :
  (21 ≤ length l)%nat → py_slice_neg 21 1 l ≠ [].
Proof.
  intros Hn Hnil. apply (f_equal length) in Hnil.
  unfold py_slice_neg in Hnil. rewrite length_take, length_drop in Hnil.
  simpl in Hnil. lia.
Qed.

Lemma iloc_neg_lookup (k : nat) (l : list Bar) :
  (1 ≤ k ≤ length l)%nat → iloc_neg k l = l !! (length l - k)%nat.
Proof.
  intros Hk. unfold iloc_neg.
  destruct (length l <? k)%nat eqn:Hlt; [apply Nat.ltb_lt in Hlt; lia | done].
Qed.

Lemma breakout_high_spec (l : list Bar) (today : Bar) :
  (21 ≤ length l)%nat →
  gt_nan (close today) (series_max (close <$> py_slice_neg 21 1 l)) = true
  ↔ breaks_past20_high l today.
Proof.
  intros Hn. rewrite gt_nan_series_max. unfold breaks_past20_high. split.
  - intros [_ Hall] i b Hi Hb. apply Hall.
    apply list_elem_of_fmap. exists b. split; [done|].
    apply elem_of_past20; eauto.
  - intros Hall. split.
    + intros Hnil. apply fmap_nil_inv in Hnil. by apply past20_nonempty in Hnil.
    + intros y (b & -> & Hb)%list_elem_of_fmap.
      apply elem_of_past20 in Hb as (i & Hi & Hb); eauto.
Qed.

(** The rows [strategy_technical] reads from a frame of at least 21 rows. *)
Lemma strategy_technical_unfold (df : DataFrame) (today yesterday : Bar) :
  (21 ≤ length (bars df))%nat →
  bars df !! (length (bars df) - 1)%nat = Some today →
  bars df !! (length (bars df) - 2)%nat = Some yesterday →
  let gc := Qltb (MA5 yesterday) (MA20 yesterday) && Qltb (MA20 today) (MA5 today) in
  let vol := if volume_columns df
             then Qltb (Volume_avg today * 1.8) (volume today) else true in
  let br := gt_nan (close today) (series_max (close <$> py_slice_neg 21 1 (bars df))) in
  triggered (strategy_technical (Some df)) = gc && vol && br
  ∧ reason (strategy_technical (Some df)) = technical_reason (gc && vol && br) gc vol br.
Proof.
  intros Hn Ht Hy. cbv zeta. unfold strategy_technical.
  destruct (length (bars df) <? 21)%nat eqn:Hlt; [apply Nat.ltb_lt in Hlt; lia|].
  rewrite !iloc_neg_lookup by lia. rewrite Ht, Hy. done.
Qed.

(** C5, amended. On a frame of at least 21 observations, with [today] its
    last row and [yesterday] the one before: the strategy triggers exactly
    when MA5 was below MA20 yesterday and is above it today, today's volume
    exceeds 1.8 times its 20-period average, and today's close exceeds each
    of the 20 closes before it; on a frame that lacks the volume or the
    Volume_avg column the volume condition counts as met. The reason string
    prints the truth value of each of the three conditions as True or False,
    triggered or not. The scenario of crossover, volume at twice a positive
    average and breakout triggers. *)
Theorem technical_triggers_iff (df : DataFrame) (today yesterday : Bar) :
  (21 ≤ length (bars df))%nat →
  bars df !! (length (bars df) - 1)%nat = Some today →
  bars df !! (length (bars df) - 2)%nat = Some yesterday →
  (triggered (strategy_technical (Some df)) = true
   ↔ golden_cross yesterday today
     ∧ (volume_columns df = true → volume_surge today)
     ∧ breaks_past20_high (bars df) today)
  ∧ (∃ gc vol br : bool,
       (gc = true ↔ golden_cross yesterday today)
       ∧ (vol = true ↔ (volume_columns df = true → volume_surge today))
       ∧ (br = true ↔ breaks_past20_high (bars df) today)
       ∧ reason (strategy_technical (Some df)) =
           (if triggered (strategy_technical (Some df))
            then "觸發（滿足 " else "未觸發（僅 ")
             +:+ pretty (Z.b2z gc + Z.b2z vol + Z.b2z br)
             +:+ "/3）：金叉=" +:+ (if gc then "True" else "False")
             +:+ "、量能=" +:+ (if vol then "True" else "False")
             +:+ "、突破高點=" +:+ (if br then "True" else "False"))
  ∧ (golden_cross yesterday today →
     (volume today == 2 * Volume_avg today)%Q →
     (0 < Volume_avg today)%Q →
     breaks_past20_high (bars df) today →
     triggered (strategy_technical (Some df)) = true).
Proof.
  intros Hn Ht Hy.
  destruct (strategy_technical_unfold df today yesterday Hn Ht Hy) as [Htrig Hreason].
  cbv zeta in Htrig, Hreason.
  assert (Qltb (MA5 yesterday) (MA20 yesterday) && Qltb (MA20 today) (MA5 today) = true
          ↔ golden_cross yesterday today) as Hgc.
  { rewrite andb_true_iff, !Qltb_lt. done. }
  assert ((if volume_columns df
           then Qltb (Volume_avg today * 1.8) (volume today) else true) = true
          ↔ (volume_columns df = true → volume_surge today)) as Hvol.
  { destruct (volume_columns df).
    - rewrite Qltb_lt. unfold volume_surge. split; [auto | intros H; by apply H].
    - split; [intros _ [=] | done]. }
  pose proof (breakout_high_spec (bars df) today Hn) as Hbr.
  assert (triggered (strategy_technical (Some df)) = true
          ↔ golden_cross yesterday today
            ∧ (volume_columns df = true → volume_surge today)
            ∧ breaks_past20_high (bars df) today) as Hiff.
  { rewrite Htrig, <- Hgc, <- Hvol, <- Hbr.
    destruct (Qltb (MA5 yesterday) (MA20 yesterday) && Qltb (MA20 today) (MA5 today)),
      (if volume_columns df
       then Qltb (Volume_avg today * 1.8) (volume today) else true),
      (gt_nan (close today) (series_max (close <$> py_slice_neg 21 1 (bars df))));
      simpl; intuition congruence. }
  split; [exact Hiff|]. split.
  - eexists _, _, _. split; [exact Hgc|]. split; [exact Hvol|]. split; [exact Hbr|].
    rewrite Hreason, Htrig. unfold technical_reason.
    destruct (Qltb (MA5 yesterday) (MA20 yesterday) && Qltb (MA20 today) (MA5 today)),
      (if volume_columns df
       then Qltb (Volume_avg today * 1.8) (volume today) else true),
      (gt_nan (close today) (series_max (close <$> py_slice_neg 21 1 (bars df))));
      reflexivity.
  - intros Hg Hv Hpos Hb. apply Hiff. split; [done|]. split; [|done].
    intros _. unfold volume_surge. rewrite Hv. lra.
Qed.

(** The counterexample of C5. In [zero_volume_frame] the averages cross,
    the close breaks the 20-session high and the volume, 0, is twice its
    average, 0: the scenario as the claim words it, and the strategy does
    not trigger, since 0 > 0 * 1.8 is false. In [no_volume_avg_frame] the
    volume of 90 does not exceed its average of 90, and the strategy
    triggers all the same, since without the column the volume condition is
    not tested. *)
Lemma technical_as_stated_fails :
  ¬ technical_as_stated zero_volume_frame ∧ ¬ technical_as_stated no_volume_avg_frame.
Proof.
  split.
  - intros H.
    destruct (H (mkBar 100 0 (136 # 5) (285 # 20) (0 # 20))
                (mkBar 9 0 (45 # 5) (195 # 20) (0 # 20))) as [_ Hsc];
      [vm_compute; reflexivity | vm_compute; reflexivity |].
    assert (triggered (strategy_technical (Some zero_volume_frame)) = false) as Hno
      by (vm_compute; reflexivity).
    rewrite Hsc in Hno; [discriminate | | |].
    + split; vm_compute; reflexivity.
    + vm_compute. reflexivity.
    + apply breakout_high_spec; [vm_compute; lia | vm_compute; reflexivity].
  - intros H.
    destruct (H (mkBar 100 90 (136 # 5) (285 # 20) (1800 # 20))
                (mkBar 9 90 (45 # 5) (195 # 20) (1800 # 20))) as [[Hsurge _] _];
      [vm_compute; reflexivity | vm_compute; reflexivity |].
    destruct Hsurge as (_ & Hv & _); [vm_compute; reflexivity|].
    vm_compute in Hv. discriminate.
Qed.

(** The witness of C5: the frame [breakout_frame]. *)
Lemma technical_triggers_iff_witness :
  let today := mkBar 100 190 (136 # 5) (285 # 20) (1900 # 20) in
  let yesterday := mkBar 9 90 (45 # 5) (195 # 20) (1800 # 20) in
  ((21 ≤ length (bars breakout_frame))%nat
   ∧ bars breakout_frame !! (length (bars breakout_frame) - 1)%nat = Some today
   ∧ bars breakout_frame !! (length (bars breakout_frame) - 2)%nat = Some yesterday)
  ∧ (triggered (strategy_technical (Some breakout_frame)) = true
     ↔ golden_cross yesterday today
       ∧ (volume_columns breakout_frame = true → volume_surge today)
       ∧ breaks_past20_high (bars breakout_frame) today)
  ∧ triggered (strategy_technical (Some breakout_frame)) = true
  ∧ reason (strategy_technical (Some breakout_frame))
    = "觸發（滿足 3/3）：金叉=True、量能=True、突破高點=True"
  ∧ reason (strategy_technical (Some zero_volume_frame))
    = "未觸發（僅 2/3）：金叉=True、量能=False、突破高點=True".
Proof.
  cbv zeta.
  assert (21 ≤ length (bars breakout_frame))%nat as H1 by (vm_compute; lia).
  assert (bars breakout_frame !! (length (bars breakout_frame) - 1)%nat
          = Some (mkBar 100 190 (136 # 5) (285 # 20) (1900 # 20))) as H3
    by (vm_compute; reflexivity).
  assert (bars breakout_frame !! (length (bars breakout_frame) - 2)%nat
          = Some (mkBar 9 90 (45 # 5) (195 # 20) (1800 # 20))) as H4
    by (vm_compute; reflexivity).
  split; [by repeat split|].
  split; [exact (proj1 (technical_triggers_iff breakout_frame _ _ H1 H3 H4))|].
  split; [vm_compute; reflexivity|].
  split; vm_compute; reflexivity.
Defined.

Lemma strategy_technical_short (df : DataFrame) :
  (length (bars df) < 21)%nat →
  strategy_technical (Some df) = mkResult "技術面" false "資料不足" None.
Proof.
  intros Hlt. unfold strategy_technical.
  by destruct (length (bars df) <? 21)%nat eqn:E; [|apply Nat.ltb_ge in E; lia].
Qed.

(** With quota left and a frame fetched, an evaluation leaves through the
    return of line 48 exactly when the frame has fewer than 20 rows. *)
Lemma history_check hash fmt cfg sid sname e w df :
  get_count (sent_today w) sid < MAX_SIGNAL_PER_STOCK cfg →
  sum_values (sent_today w) < MAX_SIGNAL_TOTAL cfg →
  env_price e = Ok (Some df) →
  ((process_stock_run hash fmt cfg sid sname e w).1 = ReturnNoHistory
   ↔ (length (bars df) < 20)%nat)
  ∧ ((20 ≤ length (bars df))%nat →
     (process_stock_run hash fmt cfg sid sname e w).1 =
       match env_fund e, env_news e with
       | Raise, _ => Caught GetFundFlow
       | Ok _, Raise => Caught LinkNews
       | Ok _, Ok _ => Caught RunAllStrategies
       end).
Proof.
  intros Hc Ht Hp. rewrite process_stock_run_exit.
  assert ((MAX_SIGNAL_PER_STOCK cfg <=? get_count (sent_today w) sid)
          || (MAX_SIGNAL_TOTAL cfg <=? sum_values (sent_today w)) = false) as ->.
  { apply orb_false_iff. split; apply Z.leb_gt; lia. }
  rewrite Hp.
  destruct (length (bars df) <? 20)%nat eqn:E.
  - apply Nat.ltb_lt in E. split; [done | lia].
  - apply Nat.ltb_ge in E. split; [|done].
    split; [|lia].
    destruct (env_fund e), (env_news e); done.
Qed.

(** C10. A history of exactly 20 observations passes the history check of
    [process_stock]: with quota left, the evaluation does not leave through
    the return of line 48, which it takes exactly when the frame has fewer
    than 20 rows, and goes on to the fund-flow, news and strategy calls. Yet
    on such a history [strategy_technical] returns triggered = false with
    the insufficient-data reason; and whenever [strategy_technical]
    triggers, its input has at least 21 observations. *)
Theorem technical_needs_21_rows hash fmt cfg :
  (∀ df, length (bars df) = 20%nat →
     strategy_technical (Some df) = mkResult "技術面" false "資料不足" None
     ∧ ∀ sid sname e w fund news,
         get_count (sent_today w) sid < MAX_SIGNAL_PER_STOCK cfg →
         sum_values (sent_today w) < MAX_SIGNAL_TOTAL cfg →
         env_price e = Ok (Some df) →
         env_fund e = Ok fund →
         env_news e = Ok news →
         (process_stock_run hash fmt cfg sid sname e w).1 = Caught RunAllStrategies)
  ∧ (∀ df sid sname e w,
       get_count (sent_today w) sid < MAX_SIGNAL_PER_STOCK cfg →
       sum_values (sent_today w) < MAX_SIGNAL_TOTAL cfg →
       env_price e = Ok (Some df) →
       ((process_stock_run hash fmt cfg sid sname e w).1 = ReturnNoHistory
        ↔ (length (bars df) < 20)%nat))
  ∧ (∀ df, triggered (strategy_technical df) = true →
       ∃ d, df = Some d ∧ (21 ≤ length (bars d))%nat).
Proof.
  split; [|split].
  - intros df Hlen. split; [apply strategy_technical_short; lia|].
    intros sid sname e w fund news Hc Ht Hp Hf Hn.
    destruct (history_check hash fmt cfg sid sname e w df Hc Ht Hp) as [_ Hgo].
    rewrite Hgo by lia. by rewrite Hf, Hn.
  - intros df sid sname e w Hc Ht Hp.
    apply (history_check hash fmt cfg sid sname e w df Hc Ht Hp).
  - intros [d|] Htrig; [|simpl in Htrig; done].
    exists d. split; [done|].
    destruct (decide (21 ≤ length (bars d))%nat) as [|Hlt]; [done|].
    rewrite strategy_technical_short in Htrig by lia. done.
Qed.

(** The witness of C10: 20 flat sessions with institutional buying. The
    evaluation gets to the strategies, where the technical verdict is
    insufficient data. *)
Lemma technical_needs_21_rows_witness :
  let e := mkEnv (Ok (Some flat20_frame)) (Ok (Some fund_buying)) (Ok [])
             1762214400 (PostStatus 204) true in
  (length (bars flat20_frame) = 20%nat
   ∧ get_count (sent_today world0) "2330" < MAX_SIGNAL_PER_STOCK default_config
   ∧ sum_values (sent_today world0) < MAX_SIGNAL_TOTAL default_config)
  ∧ strategy_technical (Some flat20_frame) = mkResult "技術面" false "資料不足" None
  ∧ (process_stock_run test_hash test_format_f default_config "2330" "TSMC" e world0).1
    = Caught RunAllStrategies.
Proof.
  cbv zeta.
  assert (length (bars flat20_frame) = 20%nat) as H1 by reflexivity.
  assert (get_count (sent_today world0) "2330" < MAX_SIGNAL_PER_STOCK default_config)
    as H2 by (vm_compute; reflexivity).
  assert (sum_values (sent_today world0) < MAX_SIGNAL_TOTAL default_config)
    as H3 by (vm_compute; reflexivity).
  split; [by repeat split|].
  destruct (proj1 (technical_needs_21_rows test_hash test_format_f default_config)
              flat20_frame H1) as [Hshort Hpass].
  split; [exact Hshort|].
  exact (Hpass "2330" "TSMC"
           (mkEnv (Ok (Some flat20_frame)) (Ok (Some fund_buying)) (Ok [])
              1762214400 (PostStatus 204) true)
           world0 (Some fund_buying) [] H2 H3 eq_refl eq_refl eq_refl).
Defined.

(** ** The liquidity prefetch filter (C3, C4, C8) *)

Lemma price_ok_spec max_price price_map c :
  price_ok max_price price_map c.1 = true ↔ quoted_below max_price price_map c.
Proof.
  unfold price_ok, quoted_below. destruct (price_map !! c.1) as [[p|]|]; split.
  - intros H. exists p. split; [done | by apply Qltb_lt].
  - intros (p' & [= <-] & H). by apply Qltb_lt.
  - done.
  - by intros (p' & [=] & _).
  - done.
  - by intros (p' & [=] & _).
Qed.

(** The walk appends to what it was given a part of the candidates, in
    their order, all quoted below the ceiling, and stops at the target. *)
Lemma batched_walk_spec max_price price_map target cand filtered :
  0 < target →
  ∃ picked,
    batched_walk max_price price_map target cand filtered = filtered ++ picked
    ∧ picked `sublist_of` cand
    ∧ Forall (quoted_below max_price price_map) picked
    ∧ (Z.of_nat (length filtered) < target →
       Z.of_nat (length (filtered ++ picked)) ≤ target).
Proof.
  intros Htarget. revert filtered.
  induction cand as [|c rest IH]; intros filtered; simpl.
  - exists []. rewrite app_nil_r. repeat split; [done | constructor | lia].
  - destruct (price_ok max_price price_map c.1) eqn:Hok.
    + apply price_ok_spec in Hok.
      destruct (target <=? Z.of_nat (length (filtered ++ [c]))) eqn:Hfull.
      * exists [c]. repeat split.
        -- apply sublist_skip, sublist_nil_l.
        -- by constructor.
        -- rewrite length_app. simpl. lia.
      * apply Z.leb_gt in Hfull.
        destruct (IH (filtered ++ [c])) as (picked & Heq & Hsub & Hall & Hlen).
        exists (c :: picked). rewrite Heq, <- app_assoc. repeat split.
        -- by apply sublist_skip.
        -- by constructor.
        -- intros _. rewrite <- app_assoc in Hlen. simpl in Hlen. by apply Hlen.
    + destruct (target <=? Z.of_nat (length filtered)) eqn:Hfull.
      * exists []. rewrite app_nil_r. repeat split;
          [apply sublist_nil_l | constructor | apply Z.leb_le in Hfull; lia].
      * destruct (IH filtered) as (picked & Heq & Hsub & Hall & Hlen).
        exists picked. repeat split; [done | by apply sublist_cons | done | done].
Qed.

Lemma target_of_positive limit cand : 0 < limit → target_of (Some limit) cand = limit.
Proof.
  intros H. unfold target_of. destruct (limit =? 0) eqn:E; [|done].
  apply Z.eqb_eq in E. lia.
Qed.

Lemma py_take_all {A} (k : Z) (l : list A) :
  Z.of_nat (length l) ≤ k → py_take k l = l.
Proof.
  intros H. unfold py_take.
  destruct (k <? 0) eqn:E; [apply Z.ltb_lt in E; lia|].
  apply take_ge. lia.
Qed.

Lemma py_take_positive {A} (k : Z) (l : list A) :
  0 < k → py_take k l = take (Z.to_nat k) l.
Proof.
  intros H. unfold py_take. by destruct (k <? 0) eqn:E; [apply Z.ltb_lt in E; lia|].
Qed.

(** C4. For every candidate list, positive limit and price map, the list the
    batched tier collects is a subsequence of the input in the input's
    order, no longer than the limit, and each of its candidates has a known
    price strictly below the ceiling; when the batched lookups return the
    maps [batch_tw] and [batch_two] the tier completes with that list for
    their merge, and the function returns it when it is not empty. *)
Theorem batched_tier_output
    (get_quote_batch : list string → string → Res (gmap string QuoteInfo))
    (get_latest_close_fast : string → string → option Q)
    (max_price : Q) (max_checks : Z) (stocks : list Candidate) (limit : Z) :
  0 < limit →
  (∀ price_map,
     let out := batched_walk max_price price_map limit (candidates stocks) [] in
     out `sublist_of` stocks
     ∧ Z.of_nat (length out) ≤ limit
     ∧ Forall (quoted_below max_price price_map) out)
  ∧ (∀ batch_tw batch_two,
       let cand := candidates stocks in
       let missing := filter (λ sid, batch_tw !! sid = None) cand.*1 in
       let out := batched_walk max_price (batch_two ∪ batch_tw) limit cand [] in
       get_quote_batch cand.*1 ".TW" = Ok batch_tw →
       (missing = [] ∧ batch_two = ∅)
       ∨ (missing ≠ [] ∧ get_quote_batch missing ".TWO" = Ok batch_two) →
       batched_tier get_quote_batch max_price limit cand = Ok out
       ∧ (out ≠ [] →
          get_stocks_under_1500 get_quote_batch get_latest_close_fast
            max_price max_checks stocks (Some limit) = out)).
Proof.
  intros Hlimit.
  assert (∀ price_map,
     let out := batched_walk max_price price_map limit (candidates stocks) [] in
     out `sublist_of` stocks ∧ Z.of_nat (length out) ≤ limit
     ∧ Forall (quoted_below max_price price_map) out) as Hwalk.
  { intros price_map out.
    destruct (batched_walk_spec max_price price_map limit (candidates stocks) [] Hlimit)
      as (picked & Heq & Hsub & Hall & Hlen).
    subst out. rewrite Heq. simpl in *. repeat split; [|lia|done].
    etrans; [exact Hsub|]. apply sublist_filter. }
  split; [exact Hwalk|].
  intros batch_tw batch_two cand missing out Htw Htwo.
  assert (batched_tier get_quote_batch max_price limit cand = Ok out) as Htier.
  { unfold batched_tier. rewrite Htw. fold missing.
    destruct Htwo as [[Hm ->] | [Hm Hq]].
    - by rewrite Hm.
    - rewrite Hq. by destruct missing. }
  split; [exact Htier|].
  intros Hne. unfold get_stocks_under_1500.
  destruct stocks as [|s0 stocks']; [by subst out cand|].
  fold cand. rewrite target_of_positive by done. rewrite Htier.
  destruct out as [|c out'] eqn:Hout; [done|].
  apply py_take_all. rewrite <- Hout. subst out. apply Hwalk.
Qed.

(** The witness of C4: a limit of 5 on [listing_with_etf]. *)
Lemma batched_tier_output_witness :
  let out := [("2330", "TSMC"); ("2317", "Hon Hai")] in
  (0 < 5)
  ∧ batched_tier mock_quote_batch 1500 5 (candidates listing_with_etf) = Ok out
  ∧ get_stocks_under_1500 mock_quote_batch no_single_quote 1500 300
      listing_with_etf (Some 5) = out
  ∧ out `sublist_of` listing_with_etf.
Proof.
  cbv zeta.
  assert (0 < 5) as H by lia.
  destruct (batched_tier_output mock_quote_batch no_single_quote 1500 300
              listing_with_etf 5 H) as [Hwalk Htier].
  specialize (Htier quotes_tw ∅ eq_refl (or_introl (conj eq_refl eq_refl))).
  cbv zeta in Htier. destruct Htier as [Htier Hfun].
  assert (batched_walk 1500 (∅ ∪ quotes_tw) 5 (candidates listing_with_etf) []
          = [("2330", "TSMC"); ("2317", "Hon Hai")]) as Hout
    by (vm_compute; reflexivity).
  rewrite Hout in Htier, Hfun.
  split; [exact H|]. split; [exact Htier|]. split; [by apply Hfun|].
  specialize (Hwalk (∅ ∪ quotes_tw)). cbv zeta in Hwalk. rewrite Hout in Hwalk.
  apply Hwalk.
Defined.

(** C3, at the failing input: the batched lookup completes and quotes the
    only candidate at 2000, above the ceiling of 1500, so the batched tier
    collects nothing; the function does not return that empty list but runs
    the serial tier and, finding no quote there, returns the candidate. *)
Theorem prefetch_falls_through_on_zero_matches :
  let stocks := [("2330", "TSMC")] in
  let batch (ids : list string) (suffix : string) : Res (gmap string QuoteInfo) :=
    Ok {[ "2330" := Some 2000%Q ]} in
  batched_tier batch 1500 1 (candidates stocks) = Ok []
  ∧ get_stocks_under_1500 batch no_single_quote 1500 300 stocks (Some 1)
    = [("2330", "TSMC")]
  ∧ get_stocks_under_1500 batch (λ _ _, Some 1200%Q) 1500 300 stocks (Some 1)
    = serial_walk (λ _ _, Some 1200%Q) 1500 300 1 (candidates stocks) [] 0.
Proof. cbv zeta. repeat split; vm_compute; reflexivity. Qed.

(** ** The passthrough tier (C8) *)

Lemma filter_all {A} (P : A → Prop) `{!∀ x, Decision (P x)} (l : list A) :
  (∀ x, x ∈ l → P x) → filter P l = l.
Proof.
  induction l as [|a l IH]; intros Hall; [done|].
  rewrite filter_cons_True by (apply Hall; left).
  f_equal. apply IH. intros x Hx. apply Hall. by right.
Qed.

(** C8, amended. For a positive limit, when neither the batched tier nor the
    serial tier finds a match, the function returns the first [limit] of
    the input candidates whose id is all digits, in input order and without
    regard to price; this is the first [limit] input candidates when every
    id is all digits. *)
Theorem passthrough_returns_first_candidates
    (get_quote_batch : list string → string → Res (gmap string QuoteInfo))
    (get_latest_close_fast : string → string → option Q)
    (max_price : Q) (max_checks : Z) (stocks : list Candidate) (limit : Z) :
  0 < limit →
  batched_tier get_quote_batch max_price limit (candidates stocks) = Raise
  ∨ batched_tier get_quote_batch max_price limit (candidates stocks) = Ok [] →
  serial_walk get_latest_close_fast max_price max_checks limit (candidates stocks) [] 0
    = [] →
  get_stocks_under_1500 get_quote_batch get_latest_close_fast max_price max_checks
    stocks (Some limit) = take (Z.to_nat limit) (candidates stocks)
  ∧ ((∀ c, c ∈ stocks → isdigit c.1 = true) →
     get_stocks_under_1500 get_quote_batch get_latest_close_fast max_price max_checks
       stocks (Some limit) = take (Z.to_nat limit) stocks).
Proof.
  intros Hlimit Hbatch Hserial.
  assert (get_stocks_under_1500 get_quote_batch get_latest_close_fast max_price
            max_checks stocks (Some limit) = take (Z.to_nat limit) (candidates stocks))
    as Heq.
  { unfold get_stocks_under_1500. destruct stocks as [|s0 stocks'];
      [unfold candidates; by rewrite filter_nil, take_nil|].
    rewrite target_of_positive by done.
    assert (serial_then_passthrough get_latest_close_fast max_price max_checks limit
              (candidates (s0 :: stocks'))
            = take (Z.to_nat limit) (candidates (s0 :: stocks'))) as Hpass.
    { unfold serial_then_passthrough. rewrite Hserial. by apply py_take_positive. }
    by destruct Hbatch as [-> | ->]. }
  split; [exact Heq|].
  intros Hdigits. rewrite Heq. unfold candidates. by rewrite filter_all.
Qed.

(** The counterexample of C8: with every price source down and a limit of
    2, the ETF 00632R at the head of the input is not returned. *)
Lemma passthrough_returns_input_fails :
  ¬ passthrough_returns_input (λ _ _, Raise) no_single_quote 1500 300
      listing_with_etf 2.
Proof.
  unfold passthrough_returns_input. intros H.
  assert (0 < 2) as H0 by lia.
  specialize (H H0 (or_introl eq_refl) eq_refl).
  vm_compute in H. discriminate H.
Qed.

(** The witness of C8's theorem: the same outage, on the same listing. *)
Lemma passthrough_returns_first_candidates_witness :
  (0 < 2
   ∧ batched_tier (λ _ _, Raise) 1500 2 (candidates listing_with_etf) = Raise
   ∧ serial_walk no_single_quote 1500 300 2 (candidates listing_with_etf) [] 0 = [])
  ∧ get_stocks_under_1500 (λ _ _, Raise) no_single_quote 1500 300
      listing_with_etf (Some 2) = [("2330", "TSMC"); ("2317", "Hon Hai")].
Proof.
  assert (0 < 2) as H0 by lia.
  split; [by repeat split|].
  exact (proj1 (passthrough_returns_first_candidates (λ _ _, Raise) no_single_quote
                  1500 300 listing_with_etf 2 H0 (or_introl eq_refl) eq_refl)).
Defined.

(** ** The FinMind fetch client (C6) *)

(** Off the insecure-transport path [get_data] maps every failure to the
    empty list. *)
Lemma get_data_no_raise_without_ssl_error {Datum}
    (first second : HttpOutcome Datum) :
  first ≠ HttpSSLError → ∃ d, get_data first second = Ok d.
Proof.
  intros Hne. destruct first as [| |status_code body]; simpl; [done | by eexists |].
  destruct (read_response status_code body); by eexists.
Qed.

(** A 402 answer is the empty list on both paths. *)
Lemma get_data_quota_exhausted {Datum} (body : JsonBody Datum) (second : HttpOutcome Datum) :
  get_data (HttpResponse 402 body) second = Ok []
  ∧ get_data HttpSSLError (HttpResponse 402 body) = Ok [].
Proof. split; reflexivity. Qed.

(** C6, at the failing inputs: after an SSL error on the first request, a
    second request that fails to connect, or that is answered with status
    500, or with a body that is not JSON, makes [get_data] raise instead of
    returning the empty list. *)
Theorem get_data_raises_on_ssl_fallback :
  get_data (Datum := string) HttpSSLError HttpOtherError = Raise
  ∧ get_data (Datum := string) HttpSSLError HttpSSLError = Raise
  ∧ get_data (Datum := string) HttpSSLError (HttpResponse 500 (BodyDict None)) = Raise
  ∧ get_data (Datum := string) HttpSSLError (HttpResponse 200 BodyInvalid) = Raise
  ∧ get_data (Datum := string) HttpOtherError HttpOtherError = Ok []
  ∧ get_data (Datum := string) (HttpResponse 500 (BodyDict None)) HttpOtherError = Ok [].
Proof. repeat split; reflexivity. Qed.

(** ** The rate limiter (C9) *)

Lemma wait_min_interval now late L : min_interval (wait now late L) = min_interval L.
Proof. reflexivity. Qed.

(** A grant entered at or after the previous one lands at least
    [min_interval] after it. *)
Lemma wait_spacing gap late L :
  (0 <= gap)%Q → (0 <= late)%Q →
  (_last L + min_interval L <= _last (wait (_last L + gap) late L))%Q.
Proof.
  intros Hgap Hlate. unfold wait. cbn [_last].
  destruct (Qltb _ _) eqn:E.
  - lra.
  - apply Qltb_ge in E. lra.
Qed.

(** From the second acquisition on: the grants that follow a grant at
    [_last L] are spaced, and the first of them is [min_interval] after it. *)
Lemma acquire_all_spaced acqs : ∀ L,
  forward acqs →
  spaced (min_interval L) (_last L :: acquire_all L (_last L) acqs).
Proof.
  induction acqs as [|[gap late] rest IH]; intros L Hfw; [done|].
  apply Forall_cons in Hfw as [[Hgap Hlate] Hrest]. simpl in Hgap, Hlate.
  cbn [acquire_all]. split.
  - by apply wait_spacing.
  - rewrite <- (wait_min_interval (_last L + gap) late L). by apply IH.
Qed.

(** C9, amended. For any sequence of acquisitions on one limiter configured
    at QPS = q, with time moving forward, consecutive grant timestamps differ
    by at least 1/max(q, 0.1) seconds; this is 1/q when q is at least 0.1. *)
Theorem limiter_spacing (q clock : Q) (acqs : list (Q * Q)) :
  forward acqs →
  spaced (1 / Qmax q 0.1) (acquire_all (RateLimiter_init q) clock acqs)
  ∧ ((0.1 <= q)%Q → (1 / Qmax q 0.1 == 1 / q)%Q).
Proof.
  intros Hfw. split.
  - destruct acqs as [|[gap late] rest]; [done|].
    apply Forall_cons in Hfw as [_ Hrest]. cbn [acquire_all].
    pose proof (acquire_all_spaced rest
                  (wait (clock + gap) late (RateLimiter_init q)) Hrest) as H.
    rewrite wait_min_interval in H. exact H.
  - intros Hq. rewrite (Q.max_l q 0.1) by done. reflexivity.
Qed.

(** The counterexample of C9: a limiter configured at one request per 20
    seconds grants two back-to-back callers 10 seconds apart. *)
Lemma spaced_by_qps_fails :
  ¬ spaced_by_qps 0.05 1762214400 [(0%Q, 0%Q); (0%Q, 0%Q)].
Proof.
  unfold spaced_by_qps. intros H.
  assert (forward [(0%Q, 0%Q); (0%Q, 0%Q)]) as Hfw
    by (repeat constructor; simpl; lra).
  specialize (H Hfw). destruct H as [H _]. vm_compute in H. by apply H.
Qed.

(** The witness of C9's theorem: three callers at the default 4 requests
    per second, the third arriving a second after the second grant. *)
Lemma limiter_spacing_witness :
  forward [(0%Q, 0%Q); (0%Q, 0.01%Q); (1%Q, 0%Q)]
  ∧ spaced (1 / Qmax 4 0.1)
      (acquire_all (RateLimiter_init 4) 1762214400
         [(0%Q, 0%Q); (0%Q, 0.01%Q); (1%Q, 0%Q)]).
Proof.
  assert (forward [(0%Q, 0%Q); (0%Q, 0.01%Q); (1%Q, 0%Q)]) as Hfw
    by (repeat constructor; simpl; lra).
  split; [exact Hfw|].
  exact (proj1 (limiter_spacing 4 1762214400 _ Hfw)).
Defined.

(* ===================================================================== *)
(** * Further properties of the ledger                                     *)
(* ===================================================================== *)

Lemma send_discord_message_seen hash cfg message url now post w :
  _seen (send_discord_message hash cfg message url now post w) = _seen w
  ∨ _seen (send_discord_message hash cfg message url now post w)
    = <[hash message := now]> (_seen w).
Proof.
  unfold send_discord_message. repeat case_match; simpl; auto.
Qed.

Lemma safe_send_seen hash cfg msg now post w :
  _seen (safe_send hash cfg msg now post w) = _seen w
  ∨ _seen (safe_send hash cfg msg now post w) = <[hash msg := now]> (_seen w).
Proof.
  unfold safe_send. repeat case_match; simpl; auto.
  apply (send_discord_message_seen hash cfg msg (DISCORD_WEBHOOK cfg) now post
           (add_terminal msg w)).
Qed.

Lemma step_seen hash fmt cfg a w :
  _seen (step hash fmt cfg a w) = _seen w
  ∨ ∃ msg, _seen (step hash fmt cfg a w) = <[hash msg := action_clock a]> (_seen w).
Proof.
  destruct a as [sid sname e | msg now post]; cbn [step action_clock].
  - left. by rewrite process_stock_unchanged.
  - destruct (safe_send_seen hash cfg msg now post w) as [-> | ->];
      [by left | right; by exists msg].
Qed.

(** X1. No action ever removes an entry of the dedup table or changes the
    entry of a hash other than the one it sends: after an action each hash
    holds the timestamp it held before or the action's clock reading, and a
    hash present at some point of a process lifetime is present ever after. *)
Theorem seen_never_evicted hash fmt cfg :
  (∀ a w h,
     _seen (step hash fmt cfg a w) !! h = _seen w !! h
     ∨ _seen (step hash fmt cfg a w) !! h = Some (action_clock a))
  ∧ (∀ acts more h,
       is_Some (_seen (run hash fmt cfg acts) !! h) →
       is_Some (_seen (run hash fmt cfg (acts ++ more)) !! h)).
Proof.
  assert (∀ a w h,
     _seen (step hash fmt cfg a w) !! h = _seen w !! h
     ∨ _seen (step hash fmt cfg a w) !! h = Some (action_clock a)) as Hstep.
  { intros a w h. destruct (step_seen hash fmt cfg a w) as [-> | [msg ->]]; [by left|].
    destruct (decide (hash msg = h)) as [<- | Hne].
    - right. apply lookup_insert_eq.
    - left. by apply lookup_insert_ne. }
  split; [exact Hstep|].
  intros acts more h Hin. induction more as [|a more IH] using rev_ind.
  - by rewrite app_nil_r.
  - rewrite app_assoc, run_snoc.
    destruct (Hstep a (run hash fmt cfg (acts ++ more)) h) as [-> | ->]; [done | by eexists].
Qed.

(** The witness of X1: a hash recorded by one push is still there after a
    later evaluation. *)
Lemma seen_never_evicted_witness :
  let acts := [Summary "summary" 1762214400 (PostStatus 204)] in
  let more := [Evaluate "2330" "TSMC" env_sink_down] in
  is_Some (_seen (run test_hash test_format_f config_with_webhook acts)
             !! test_hash "summary")
  ∧ is_Some (_seen (run test_hash test_format_f config_with_webhook (acts ++ more))
               !! test_hash "summary").
Proof.
  cbv zeta.
  assert (is_Some (_seen (run test_hash test_format_f config_with_webhook
                            [Summary "summary" 1762214400 (PostStatus 204)])
                     !! test_hash "summary")) as H
    by (vm_compute; eauto).
  split; [exact H|].
  exact (proj2 (seen_never_evicted test_hash test_format_f config_with_webhook)
           _ [Evaluate "2330" "TSMC" env_sink_down] _ H).
Defined.

(** X2. A send that passes the dedup gate records its timestamp before the
    webhook is tried, so when the sink rejects it (or raises) nothing is
    delivered and every retry of the same text within the window is
    suppressed too, whatever the sink would answer then. *)
Theorem failed_delivery_blocks_retry hash cfg message url t1 t2 post1 post2 w :
  (inject_Z (DEDUP_WINDOW_SEC cfg) <= t1 - default 0%Q (_seen w !! hash message))%Q →
  post_accepted post1 = false →
  (t2 - t1 < inject_Z (DEDUP_WINDOW_SEC cfg))%Q →
  let w1 := send_discord_message hash cfg message url t1 post1 w in
  discord w1 = discord w
  ∧ _seen w1 !! hash message = Some t1
  ∧ send_discord_message hash cfg message url t2 post2 w1 = w1.
Proof.
  intros Hpass Hfail Hin w1.
  destruct (send_discord_message_passes hash cfg message url t1 post1 w Hpass)
    as (Hseen & Hdisc & _). fold w1 in Hseen, Hdisc.
  rewrite Hfail, andb_false_r in Hdisc.
  assert (_seen w1 !! hash message = Some t1) as Hrec
    by (rewrite Hseen; apply lookup_insert_eq).
  split; [done|]. split; [done|].
  apply send_discord_message_suppressed. by rewrite Hrec.
Qed.

(** The witness of X2: the webhook answers 500, the retry comes a minute
    later. *)
Lemma failed_delivery_blocks_retry_witness :
  let send := send_discord_message test_hash default_config "hi" "hook" in
  let w1 := send 1762214400%Q (PostStatus 500) world0 in
  ((inject_Z (DEDUP_WINDOW_SEC default_config)
      <= 1762214400 - default 0%Q (_seen world0 !! test_hash "hi"))%Q
   ∧ post_accepted (PostStatus 500) = false
   ∧ (1762214460 - 1762214400 < inject_Z (DEDUP_WINDOW_SEC default_config))%Q)
  ∧ discord w1 = discord world0
  ∧ _seen w1 !! test_hash "hi" = Some 1762214400%Q
  ∧ send 1762214460%Q (PostStatus 204) w1 = w1.
Proof.
  cbv zeta.
  assert (inject_Z (DEDUP_WINDOW_SEC default_config)
            <= 1762214400 - default 0%Q (_seen world0 !! test_hash "hi"))%Q as H1
    by (vm_compute; discriminate).
  assert (post_accepted (PostStatus 500) = false) as H2 by reflexivity.
  assert (1762214460 - 1762214400 < inject_Z (DEDUP_WINDOW_SEC default_config))%Q as H3
    by (vm_compute; reflexivity).
  split; [by repeat split|].
  exact (failed_delivery_blocks_retry test_hash default_config "hi" "hook"
           1762214400 1762214460 (PostStatus 500) (PostStatus 204) world0 H1 H2 H3).
Defined.

Lemma safe_send_without_webhook hash cfg msg now post w :
  DISCORD_WEBHOOK cfg = "" →
  _seen (safe_send hash cfg msg now post w) = _seen w
  ∧ discord (safe_send hash cfg msg now post w) = discord w.
Proof.
  intros Hw. unfold safe_send. rewrite Hw. simpl.
  by destruct (str_truthy msg).
Qed.

(** X3. [safe_send] tests only config.DISCORD_WEBHOOK: when that is empty,
    no evaluation and no summary push of a process lifetime posts to
    Discord or writes the dedup table, even if the environment variable
    DISCORD_WEBHOOK, which the notifier would fall back to, is set. *)
Theorem no_config_webhook_no_delivery hash fmt cfg acts :
  DISCORD_WEBHOOK cfg = "" →
  discord (run hash fmt cfg acts) = [] ∧ _seen (run hash fmt cfg acts) = ∅.
Proof.
  intros Hw. induction acts as [|a acts [IHd IHs]] using rev_ind; [done|].
  rewrite run_snoc. destruct a as [sid sname e | msg now post]; cbn [step].
  - by rewrite process_stock_unchanged.
  - destruct (safe_send_without_webhook hash cfg msg now post
                (run hash fmt cfg acts) Hw) as [-> ->]. done.
Qed.

(** The witness of X3: the default configuration with the environment
    variable set, an evaluation and a summary: the summary is printed and
    goes nowhere else. *)
Lemma no_config_webhook_no_delivery_witness :
  let cfg := mkConfig 4 "" "https://discord.example/hook" 20 200 1200 in
  let e := mkEnv (Ok (Some breakout_frame)) (Ok None) (Ok [])
             1762214400 (PostStatus 204) true in
  let acts := [Evaluate "2330" "TSMC" e; Summary "summary" 1762214460 (PostStatus 204)] in
  DISCORD_WEBHOOK cfg = ""
  ∧ terminal (run test_hash test_format_f cfg acts) = ["summary"]
  ∧ discord (run test_hash test_format_f cfg acts) = []
  ∧ _seen (run test_hash test_format_f cfg acts) = ∅.
Proof.
  cbv zeta. split; [reflexivity|]. split; [vm_compute; reflexivity|].
  exact (no_config_webhook_no_delivery test_hash test_format_f
           (mkConfig 4 "" "https://discord.example/hook" 20 200 1200) _ eq_refl).
Defined.

Lemma safe_send_terminal hash cfg msg now post w :
  terminal (safe_send hash cfg msg now post w)
  = terminal w ++ (if str_truthy msg then [msg] else []).
Proof.
  unfold safe_send. destruct (str_truthy msg); simpl; [|by rewrite app_nil_r].
  destruct (str_truthy (DISCORD_WEBHOOK cfg)); [|done].
  by destruct (send_discord_message_frame hash cfg msg (DISCORD_WEBHOOK cfg) now post
                 (add_terminal msg w)) as (_ & _ & ->).
Qed.

Lemma summary_lines_snoc acts a :
  summary_lines (acts ++ [a])
  = summary_lines acts
    ++ match a with
       | Summary msg _ _ => if str_truthy msg then [msg] else []
       | Evaluate _ _ _ => []
       end.
Proof.
  unfold summary_lines. rewrite omap_app. f_equal.
  destruct a as [sid sname e | msg now post]; simpl; [done|].
  by destruct (str_truthy msg).
Qed.

(** X4. No evaluation notifies, logs or counts. Line 58 of main.py passes
    [pos_threshold] to the router, which hands it to [strategy_news] twice,
    so the router raises for every such call, whatever the data; the
    evaluation therefore leaves through one of the two early returns or
    through the [except] of line 79, entered from one of the four calls up
    to line 58, and leaves the world as it found it. Over a whole process
    lifetime the quota table and the signal log stay empty, and the lines
    printed are the round summaries that are not empty, in order. *)
Theorem evaluation_never_records hash fmt cfg :
  (∀ df fund news p, run_all_strategies fmt df fund news (Some p) = Raise)
  ∧ (∀ sid sname e w,
       process_stock hash fmt cfg sid sname e w = w
       ∧ (process_stock_run hash fmt cfg sid sname e w).1
         ∈ [ReturnQuota; ReturnNoHistory; Caught GetPriceWithMa; Caught GetFundFlow;
            Caught LinkNews; Caught RunAllStrategies])
  ∧ (∀ acts,
       sent_today (run hash fmt cfg acts) = ∅
       ∧ signals (run hash fmt cfg acts) = []
       ∧ terminal (run hash fmt cfg acts) = summary_lines acts).
Proof.
  split; [reflexivity|]. split.
  - intros sid sname e w. split; [apply process_stock_unchanged|].
    rewrite process_stock_run_exit.
    destruct (_ || _); [set_solver|].
    destruct (env_price e) as [[df|]|]; [|set_solver..].
    destruct (_ <? _)%nat; [set_solver|].
    destruct (env_fund e), (env_news e); set_solver.
  - intros acts. induction acts as [|a acts (IHs & IHg & IHt)] using rev_ind; [done|].
    rewrite run_snoc, summary_lines_snoc.
    destruct (step_sent_today hash fmt cfg a (run hash fmt cfg acts)) as [-> ->].
    split; [done|]. split; [done|].
    destruct a as [sid sname e | msg now post]; cbn [step].
    + by rewrite process_stock_unchanged, app_nil_r.
    + by rewrite safe_send_terminal, IHt.
Qed.

(* ===================================================================== *)
(** * Further properties of the strategy router                            *)
(* ===================================================================== *)

Lemma Qsum_cons (x : Q) (l : list Q) : Qsum (x :: l) = (x + Qsum l)%Q.
Proof. reflexivity. Qed.

Lemma Qsum_three {A} (f g h : A → Q) (l : list A) :
  (Qsum (f <$> l) + Qsum (g <$> l) + Qsum (h <$> l)
   == Qsum ((λ x, f x + g x + h x) <$> l))%Q.
Proof.
  induction l as [|a l IH]; [reflexivity|].
  rewrite !fmap_cons, !Qsum_cons. lra.
Qed.

Lemma fundamental_total (recent : list FundRow) :
  (fillna_sum (Foreign_Investor <$> recent)
   + fillna_sum (Investment_Trust <$> recent)
   + fillna_sum (Dealer_self <$> recent)
   == Qsum (net_flow <$> recent))%Q.
Proof.
  unfold fillna_sum. rewrite <- !list_fmap_compose.
  apply (Qsum_three (default 0%Q ∘ Foreign_Investor) (default 0%Q ∘ Investment_Trust)
           (default 0%Q ∘ Dealer_self)).
Qed.

Lemma tail3_app {A} (pre recent : list A) :
  length recent = 3%nat → tail3 (pre ++ recent) = recent.
Proof.
  intros H. unfold tail3. rewrite length_app, H.
  replace (length pre + 3 - 3)%nat with (length pre) by lia.
  by rewrite drop_app_length.
Qed.

(** X5. With fewer than three rows of fund-flow data, or none, the
    fundamental strategy does not trigger. With three or more it triggers
    exactly when the net flows of the last three days, all categories added
    and missing values counted as zero, sum to more than 1500; the whole
    verdict depends on the last three rows only. *)
Theorem fundamental_triggers_iff (fmt : nat → Q → string) :
  triggered (strategy_fundamental fmt None) = false
  ∧ (∀ fd, (length fd < 3)%nat →
       triggered (strategy_fundamental fmt (Some fd)) = false)
  ∧ (∀ fd, (3 ≤ length fd)%nat →
       (triggered (strategy_fundamental fmt (Some fd)) = true
        ↔ (1500 < Qsum (net_flow <$> tail3 fd))%Q))
  ∧ (∀ pre pre' recent, length recent = 3%nat →
       strategy_fundamental fmt (Some (pre ++ recent))
       = strategy_fundamental fmt (Some (pre' ++ recent))).
Proof.
  split; [done|]. split; [|split].
  - intros fd Hlt. unfold strategy_fundamental.
    by destruct (length fd <? 3)%nat eqn:E; [|apply Nat.ltb_ge in E; lia].
  - intros fd Hge. unfold strategy_fundamental.
    destruct (length fd <? 3)%nat eqn:E; [apply Nat.ltb_lt in E; lia|].
    cbn [triggered]. rewrite Qltb_lt.
    pose proof (fundamental_total (tail3 fd)) as Htot.
    split; intros H; lra.
  - intros pre pre' recent Hlen. unfold strategy_fundamental.
    rewrite !tail3_app by done. rewrite !length_app, Hlen.
    by replace (length pre + 3 <? 3)%nat with false by (symmetry; apply Nat.ltb_ge; lia);
       replace (length pre' + 3 <? 3)%nat with false by (symmetry; apply Nat.ltb_ge; lia).
Qed.

(** The witness of X5: the flows 600, 500, 500 and 400, 400, 400 of the
    specification's scenario. *)
Lemma fundamental_triggers_iff_witness :
  let quiet := replicate 3 (mkFundRow (Some 300%Q) (Some 100%Q) None) in
  ((3 ≤ length fund_buying)%nat ∧ (1500 < Qsum (net_flow <$> tail3 fund_buying))%Q)
  ∧ triggered (strategy_fundamental test_format_f (Some fund_buying)) = true
  ∧ triggered (strategy_fundamental test_format_f (Some quiet)) = false.
Proof.
  cbv zeta.
  assert (3 ≤ length fund_buying)%nat as H1 by (vm_compute; lia).
  assert (1500 < Qsum (net_flow <$> tail3 fund_buying))%Q as H2
    by (vm_compute; reflexivity).
  split; [by split|]. split; [|vm_compute; reflexivity].
  exact (proj2 (proj1 (proj2 (proj2 (fundamental_triggers_iff test_format_f)))
                  fund_buying H1) H2).
Defined.

(** X6. The news strategy triggers exactly when some item of the ranked list
    is classified positive (in any letter case) with a score, read from
    sentiment_score or else from score or else 0, at or above the threshold;
    items of any other class never matter. *)
Theorem news_triggers_iff (fmt : nat → Q → string) (news : list NewsItem) (thr : Q) :
  triggered (strategy_news fmt news thr) = true
  ↔ ∃ n, n ∈ news ∧ is_positive n ∧ (thr <= _score n)%Q.
Proof.
  unfold strategy_news, is_positive.
  destruct news as [|n0 rest]; [split; [done | by intros (n & Hn & _); inversion Hn]|].
  destruct (filter _ (n0 :: rest)) as [|p ps] eqn:Hpos.
  { split; [done|]. intros (n & Hn & Hp & _).
    assert (n ∈ filter (λ n, upper (sentiment n) = "POSITIVE") (n0 :: rest)) as Hin
      by (apply list_elem_of_filter; done).
    rewrite Hpos in Hin. inversion Hin. }
  cbn [triggered]. unfold Qgeb, max_default.
  destruct (series_max (_score <$> p :: ps)) as [m|] eqn:Hm;
    [|apply series_max_None in Hm; done].
  destruct (series_max_spec _ _ Hm) as [Hin Hle]. simpl.
  rewrite negb_true_iff, Qltb_ge. split.
  - intros Hthr. apply list_elem_of_fmap in Hin as (n & -> & Hn).
    rewrite <- Hpos in Hn. apply list_elem_of_filter in Hn as [Hp Hn]. eauto.
  - intros (n & Hn & Hp & Hthr).
    assert (n ∈ p :: ps) as Hn'
      by (rewrite <- Hpos; apply list_elem_of_filter; done).
    assert (_score n <= m)%Q as Hle' by (apply Hle, list_elem_of_fmap; eauto).
    lra.
Qed.

Lemma elem_of_py_slice_neg {A} (a b : nat) (l : list A) (x : A) :
  x ∈ py_slice_neg a b l
  ↔ ∃ i, (length l - a ≤ i < length l - b)%nat ∧ l !! i = Some x.
Proof.
  unfold py_slice_neg. rewrite list_elem_of_lookup. split.
  - intros [j Hj]. pose proof (lookup_lt_Some _ _ _ Hj) as Hlt.
    rewrite length_take, length_drop in Hlt.
    rewrite lookup_take_lt, lookup_drop in Hj by lia.
    exists (length l - a + j)%nat. split; [lia | done].
  - intros (i & Hi & Hx). exists (i - (length l - a))%nat.
    rewrite lookup_take_lt, lookup_drop by lia.
    by replace (length l - a + (i - (length l - a)))%nat with i by lia.
Qed.

Lemma series_max_is_Some (l : list Q) : l ≠ [] → ∃ m, series_max l = Some m.
Proof.
  intros Hne. destruct (series_max l) as [m|] eqn:E; [by eexists|].
  by apply series_max_None in E.
Qed.

(** X8. [_build_advice] gives no advice for a frame of fewer than 60 rows
    and an advice for every longer one. In an advice the buy zone is the
    interval between the last row's MA5 and MA20, lower bound first; the stop
    is not negative, and is below the zone when the zone's lower bound is not
    negative; the first target, the 20-day high, does not exceed the second,
    the 60-day high. The technical strategy attaches an advice only to a
    triggered verdict on a frame of at least 60 rows. *)
Theorem build_advice_shape (df : DataFrame) :
  (_build_advice df = None ↔ (length (bars df) < 60)%nat)
  ∧ (∀ a, _build_advice df = Some a →
       ∃ today h20 h60,
         bars df !! (length (bars df) - 1)%nat = Some today
         ∧ ((buy_zone a).1 <= (buy_zone a).2)%Q
         ∧ ((buy_zone a).1 = MA5 today ∧ (buy_zone a).2 = MA20 today
            ∨ (buy_zone a).1 = MA20 today ∧ (buy_zone a).2 = MA5 today)
         ∧ (0 <= stop a)%Q
         ∧ ((0 <= (buy_zone a).1)%Q → (stop a <= (buy_zone a).1)%Q)
         ∧ tp1 a = Some h20 ∧ tp2 a = Some h60 ∧ (h20 <= h60)%Q)
  ∧ (∀ a, advice (strategy_technical (Some df)) = Some a →
       triggered (strategy_technical (Some df)) = true
       ∧ (60 ≤ length (bars df))%nat
       ∧ _build_advice df = Some a).
Proof.
  assert (∀ a, _build_advice df = Some a → (60 ≤ length (bars df))%nat) as Hlen.
  { intros a. unfold _build_advice.
    destruct (length (bars df) <? 60)%nat eqn:E; [done|]. apply Nat.ltb_ge in E. done. }
  split; [|split].
  - unfold _build_advice. destruct (length (bars df) <? 60)%nat eqn:E.
    + apply Nat.ltb_lt in E. done.
    + apply Nat.ltb_ge in E. rewrite iloc_neg_lookup by lia.
      destruct (lookup_lt_is_Some_2 (bars df) (length (bars df) - 1)) as [today ->]; [lia|].
      split; [done | lia].
  - intros a Ha. pose proof (Hlen a Ha) as Hn. revert Ha. unfold _build_advice.
    destruct (length (bars df) <? 60)%nat eqn:E; [done|].
    rewrite iloc_neg_lookup by lia.
    destruct (lookup_lt_is_Some_2 (bars df) (length (bars df) - 1)) as [today Ht]; [lia|].
    rewrite Ht.
    destruct (series_max_is_Some (close <$> py_slice_neg 21 1 (bars df))) as [h20 H20].
    { intros Hnil. apply fmap_nil_inv in Hnil. apply (past20_nonempty (bars df)); [lia | done]. }
    destruct (series_max_is_Some (close <$> py_slice_neg 61 1 (bars df))) as [h60 H60].
    { intros Hnil. apply fmap_nil_inv in Hnil.
      apply (f_equal length) in Hnil. unfold py_slice_neg in Hnil.
      rewrite length_take, length_drop in Hnil. simpl in Hnil. lia. }
    rewrite H20, H60. intros [= <-]. exists today, h20, h60. cbn [buy_zone stop tp1 tp2 fst snd].
    split; [done|].
    assert (h20 <= h60)%Q as Hh.
    { destruct (series_max_spec _ _ H20) as [Hin _].
      destruct (series_max_spec _ _ H60) as [_ Hle]. apply Hle.
      apply list_elem_of_fmap in Hin as (b & -> & Hb).
      apply list_elem_of_fmap. exists b. split; [done|].
      apply elem_of_py_slice_neg in Hb as (i & Hi & Hb).
      apply elem_of_py_slice_neg. exists i. split; [lia | done]. }
    destruct (Qltb (MA20 today) (MA5 today)) eqn:Hc.
    + apply Qltb_lt in Hc. repeat split; try done; try lra; [by right | apply Q.le_max_l |].
      intros Hlo. apply Q.max_lub; lra.
    + apply Qltb_ge in Hc. repeat split; try done; [by left | apply Q.le_max_l |].
      intros Hlo. apply Q.max_lub; lra.
  - intros a. unfold strategy_technical.
    destruct (length (bars df) <? 21)%nat; [done|].
    destruct (iloc_neg 1 (bars df)) as [today|]; [|done].
    destruct (iloc_neg 2 (bars df)) as [yesterday|]; [|done].
    cbn [advice triggered].
    destruct (_ && _ && _); [|done].
    intros Ha. split; [done|]. split; [by apply (Hlen a) | done].
Qed.

(** A frame of 61 sessions that ends like [breakout_frame]. *)
Lemma build_advice_shape_witness :
  let df := _normalize_price_df
              (replicate 55 (10%Q, 90%Q) ++ replicate 5 (9%Q, 90%Q) ++ [(100%Q, 190%Q)]) in
  ∃ a, advice (strategy_technical (Some df)) = Some a
       ∧ triggered (strategy_technical (Some df)) = true
       ∧ (60 ≤ length (bars df))%nat
       ∧ tp1 a = Some 10%Q ∧ tp2 a = Some 10%Q.
Proof.
  cbv zeta.
  set (df := _normalize_price_df
               (replicate 55 (10%Q, 90%Q) ++ replicate 5 (9%Q, 90%Q) ++ [(100%Q, 190%Q)])).
  destruct (advice (strategy_technical (Some df))) as [a|] eqn:Ha;
    [|vm_compute in Ha; discriminate Ha].
  exists a.
  destruct (proj2 (proj2 (build_advice_shape df)) a Ha) as (Ht & Hn & Hb).
  split; [done|]. split; [done|]. split; [done|].
  vm_compute in Hb. injection Hb as <-. split; reflexivity.
Defined.

(* ===================================================================== *)
(** * Further properties of the prefetch filter                            *)
(* ===================================================================== *)

(** The serial walk appends to what it was given a part of the candidates it
    may still probe, in their order, each quoted below the ceiling, and
    stops at the target. *)
Lemma serial_walk_spec glcf max_price max_checks target cand : ∀ filtered checks,
  0 < target →
  ∃ picked,
    serial_walk glcf max_price max_checks target cand filtered checks
      = filtered ++ picked
    ∧ Forall (probed_below glcf max_price) picked
    ∧ (Z.of_nat (length filtered) < target →
       Z.of_nat (length (filtered ++ picked)) ≤ target)
    ∧ picked `sublist_of` take (Z.to_nat (Z.max 1 (max_checks - checks))) cand.
Proof.
  induction cand as [|c rest IH]; intros filtered checks Htarget.
  - exists []. rewrite app_nil_r. repeat split; [constructor | lia | by rewrite take_nil].
  - cbn [serial_walk]. fold (serial_quote glcf c).
    assert (Z.to_nat (Z.max 1 (max_checks - checks))
            = S (Z.to_nat (Z.max 1 (max_checks - checks) - 1))) as Hs by lia.
    rewrite Hs. cbn [take].
    destruct (serial_quote glcf c) as [v|] eqn:Hq;
      [destruct (Qltb v max_price) eqn:Hv|].
    + apply Qltb_lt in Hv.
      assert (probed_below glcf max_price c) as Hc by (exists v; done).
      destruct (_ || _) eqn:Hstop.
      * exists [c]. repeat split.
        -- by constructor.
        -- rewrite length_app. simpl. lia.
        -- apply sublist_skip, sublist_nil_l.
      * apply orb_false_iff in Hstop as [Hfull Hchk].
        apply Z.leb_gt in Hfull, Hchk.
        destruct (IH (filtered ++ [c]) (checks + 1) Htarget)
          as (picked & Heq & Hall & Hlen & Hsub).
        exists (c :: picked). rewrite Heq, <- app_assoc. repeat split.
        -- by constructor.
        -- intros _. rewrite <- app_assoc in Hlen. by apply Hlen.
        -- apply sublist_skip.
           by replace (Z.to_nat (Z.max 1 (max_checks - checks) - 1))
             with (Z.to_nat (Z.max 1 (max_checks - (checks + 1)))) by lia.
    + destruct (_ || _) eqn:Hstop.
      * exists []. rewrite app_nil_r. repeat split;
          [constructor | lia | apply sublist_nil_l].
      * apply orb_false_iff in Hstop as [Hfull Hchk].
        apply Z.leb_gt in Hfull, Hchk.
        destruct (IH filtered (checks + 1) Htarget)
          as (picked & Heq & Hall & Hlen & Hsub).
        exists picked. repeat split; [done | done | done |].
        apply sublist_cons.
        by replace (Z.to_nat (Z.max 1 (max_checks - checks) - 1))
          with (Z.to_nat (Z.max 1 (max_checks - (checks + 1)))) by lia.
    + destruct (_ || _) eqn:Hstop.
      * exists []. rewrite app_nil_r. repeat split;
          [constructor | lia | apply sublist_nil_l].
      * apply orb_false_iff in Hstop as [Hfull Hchk].
        apply Z.leb_gt in Hfull, Hchk.
        destruct (IH filtered (checks + 1) Htarget)
          as (picked & Heq & Hall & Hlen & Hsub).
        exists picked. repeat split; [done | done | done |].
        apply sublist_cons.
        by replace (Z.to_nat (Z.max 1 (max_checks - checks) - 1))
          with (Z.to_nat (Z.max 1 (max_checks - (checks + 1)))) by lia.
Qed.

(** X9. For a positive limit, the list the serial tier collects is a
    subsequence, in input order, of the first max_checks digit-id candidates
    (of the first one when max_checks is below 1), is no longer than the
    limit, and holds only candidates quoted strictly below the ceiling on
    .TW or, failing that, on .TWO. When the batched lookup raises and the
    serial tier collects anything, the function returns exactly that list. *)
Theorem serial_tier_output
    (get_quote_batch : list string → string → Res (gmap string QuoteInfo))
    (get_latest_close_fast : string → string → option Q)
    (max_price : Q) (max_checks : Z) (stocks : list Candidate) (limit : Z) :
  0 < limit →
  let cand := candidates stocks in
  let out := serial_walk get_latest_close_fast max_price max_checks limit cand [] 0 in
  out `sublist_of` take (Z.to_nat (Z.max 1 max_checks)) cand
  ∧ Z.of_nat (length out) ≤ limit
  ∧ Forall (probed_below get_latest_close_fast max_price) out
  ∧ (batched_tier get_quote_batch max_price limit cand = Raise →
     out ≠ [] →
     get_stocks_under_1500 get_quote_batch get_latest_close_fast max_price max_checks
       stocks (Some limit) = out).
Proof.
  intros Hlimit cand out.
  destruct (serial_walk_spec get_latest_close_fast max_price max_checks limit cand
              [] 0 Hlimit) as (picked & Heq & Hall & Hlen & Hsub).
  fold out in Heq. simpl in Heq, Hlen. rewrite Z.sub_0_r in Hsub.
  assert (Z.of_nat (length out) ≤ limit) as Hle by (rewrite Heq; lia).
  split; [by rewrite Heq|]. split; [done|]. split; [by rewrite Heq|].
  intros Hraise Hne. unfold get_stocks_under_1500.
  destruct stocks as [|s0 stocks']; [done|].
  fold cand. rewrite target_of_positive by done. rewrite Hraise.
  unfold serial_then_passthrough. fold out.
  destruct out as [|c out'] eqn:Hout; [done|].
  by apply py_take_all.
Qed.

(** The witness of X9: the batched source raises, single quotes answer. *)
Lemma serial_tier_output_witness :
  let quote (sid suffix : string) : option Q :=
    if decide (suffix = ".TWO") then (if decide (sid = "3008") then Some 900%Q else None)
    else if decide (sid = "2330") then Some 1000%Q else None in
  let out := [("2330", "TSMC"); ("3008", "Largan")] in
  (0 < 5
   ∧ batched_tier (λ _ _, Raise) 1500 5 (candidates listing_with_etf) = Raise
   ∧ serial_walk quote 1500 300 5 (candidates listing_with_etf) [] 0 = out)
  ∧ get_stocks_under_1500 (λ _ _, Raise) quote 1500 300 listing_with_etf (Some 5) = out.
Proof.
  cbv zeta.
  set (quote := λ sid suffix : string,
         if decide (suffix = ".TWO") then (if decide (sid = "3008") then Some 900%Q else None)
         else if decide (sid = "2330") then Some 1000%Q else None).
  assert (0 < 5) as H0 by lia.
  assert (serial_walk quote 1500 300 5 (candidates listing_with_etf) [] 0
          = [("2330", "TSMC"); ("3008", "Largan")]) as Hs by (vm_compute; reflexivity).
  split; [by repeat split|].
  rewrite <- Hs.
  apply (proj2 (proj2 (proj2 (serial_tier_output (λ _ _, Raise) quote 1500 300
                                listing_with_etf 5 H0)))); [reflexivity|].
  rewrite Hs. discriminate.
Defined.

Lemma batched_tier_inv gqb max_price target cand out :
  batched_tier gqb max_price target cand = Ok out →
  ∃ price_map, out = batched_walk max_price price_map target cand [].
Proof.
  unfold batched_tier. destruct (gqb cand.*1 ".TW") as [tw|]; [|done].
  destruct (match filter _ _ with [] => _ | _ => _ end) as [two|]; [|done].
  intros [= <-]. by eexists.
Qed.

Lemma candidates_digit_id stocks : Forall digit_id (candidates stocks).
Proof.
  apply Forall_forall. intros c Hc. unfold candidates in Hc.
  by apply list_elem_of_filter in Hc as [Hd _].
Qed.

Lemma take_nonempty {A} (n : nat) (l : list A) : (0 < n)%nat → l ≠ [] → take n l ≠ [].
Proof. destruct n, l; simpl; [lia | lia | done | done]. Qed.

(** Whatever tier answers, the result is cut from the digit-id candidates
    and is empty only if there are none. *)
Lemma prefetch_from_candidates gqb glcf max_price max_checks stocks limit :
  0 < limit →
  let out := get_stocks_under_1500 gqb glcf max_price max_checks stocks (Some limit) in
  out `sublist_of` candidates stocks
  ∧ Z.of_nat (length out) ≤ limit
  ∧ (candidates stocks ≠ [] → out ≠ []).
Proof.
  intros Hlimit out. subst out. unfold get_stocks_under_1500.
  destruct stocks as [|s0 stocks'];
    [repeat split; [apply sublist_nil_l | simpl; lia | done]|].
  set (cand := candidates (s0 :: stocks')).
  rewrite target_of_positive by done.
  assert (∀ l, l `sublist_of` cand → l ≠ [] →
            py_take limit l `sublist_of` cand
            ∧ Z.of_nat (length (py_take limit l)) ≤ limit
            ∧ (cand ≠ [] → py_take limit l ≠ [])) as Hcut.
  { intros l Hsub Hne. rewrite py_take_positive by done. repeat split.
    - etrans; [apply sublist_take | done].
    - rewrite length_take. lia.
    - intros _. apply take_nonempty; [lia | done]. }
  assert (let r := serial_then_passthrough glcf max_price max_checks limit cand in
          r `sublist_of` cand ∧ Z.of_nat (length r) ≤ limit ∧ (cand ≠ [] → r ≠ []))
    as Hserial.
  { cbv zeta. unfold serial_then_passthrough.
    destruct (serial_walk_spec glcf max_price max_checks limit cand [] 0 Hlimit)
      as (picked & Heq & _ & _ & Hsub).
    simpl in Heq. rewrite Heq.
    destruct picked as [|c picked'].
    - rewrite py_take_positive by done. repeat split.
      + apply sublist_take.
      + rewrite length_take. lia.
      + intros Hne. apply take_nonempty; [lia | done].
    - apply Hcut; [|done]. etrans; [exact Hsub | apply sublist_take]. }
  destruct (batched_tier gqb max_price limit cand) as [[|c out']|] eqn:Hb;
    [exact Hserial | | exact Hserial].
  apply Hcut; [|done].
  apply batched_tier_inv in Hb as [pm ->].
  destruct (batched_walk_spec max_price pm limit cand [] Hlimit)
    as (picked & Heq & Hsub & _). by rewrite Heq.
Qed.

(** X10. For a positive limit and whatever the price sources answer or
    raise, the result of [get_stocks_under_1500] is a subsequence of the
    input in input order, has at most [limit] candidates, holds only ids made
    of digits, and is empty exactly when the input has no such id. *)
Theorem prefetch_result_shape
    (get_quote_batch : list string → string → Res (gmap string QuoteInfo))
    (get_latest_close_fast : string → string → option Q)
    (max_price : Q) (max_checks : Z) (stocks : list Candidate) (limit : Z) :
  0 < limit →
  let out := get_stocks_under_1500 get_quote_batch get_latest_close_fast
               max_price max_checks stocks (Some limit) in
  out `sublist_of` stocks
  ∧ Z.of_nat (length out) ≤ limit
  ∧ Forall digit_id out
  ∧ (out = [] ↔ candidates stocks = []).
Proof.
  intros Hlimit out.
  destruct (prefetch_from_candidates get_quote_batch get_latest_close_fast max_price
              max_checks stocks limit Hlimit) as (Hsub & Hlen & Hne).
  fold out in Hsub, Hlen, Hne.
  split; [etrans; [exact Hsub | apply sublist_filter]|].
  split; [done|]. split.
  - apply Forall_forall. intros c Hc.
    pose proof (candidates_digit_id stocks) as Hd.
    rewrite Forall_forall in Hd. apply Hd. by apply (sublist_subseteq _ _ Hsub).
  - split.
    + intros Hnil. destruct (decide (candidates stocks = [])) as [|Hc]; [done|].
      by apply Hne in Hc.
    + intros Hnil. rewrite Hnil in Hsub. by apply sublist_nil_r in Hsub.
Qed.

(** The witness of X10: the outage of C8's counterexample. *)
Lemma prefetch_result_shape_witness :
  let out := get_stocks_under_1500 (λ _ _, Raise) no_single_quote 1500 300
               listing_with_etf (Some 2) in
  0 < 2
  ∧ out `sublist_of` listing_with_etf
  ∧ Z.of_nat (length out) ≤ 2
  ∧ Forall digit_id out.
Proof.
  cbv zeta.
  assert (0 < 2) as H0 by lia.
  destruct (prefetch_result_shape (λ _ _, Raise) no_single_quote 1500 300
              listing_with_etf 2 H0) as (H1 & H2 & H3 & _).
  by repeat split.
Defined.

(* ===================================================================== *)
(** * Properties of the universe acquisition chain                         *)
(* ===================================================================== *)

Lemma twse_keep_spec strip row c :
  twse_keep strip row = Some c →
  c = (strip (default "" (row_code row)), strip (default "" (row_name row)))
  ∧ digit_id c
  ∧ str_in "上市" (strip (default "" (row_market row))) = true.
Proof.
  unfold twse_keep, digit_id.
  destruct (isdigit _ && str_in _ _) eqn:E; [|done].
  apply andb_true_iff in E as [Hd Hm]. by intros [= <-].
Qed.

(** X11. Every candidate [_fetch_from_twse_openapi] returns comes from a row
    of the decoded listing whose stripped code is made of digits and whose
    market contains the word for listed; the candidates keep the order of
    their rows, so the digit filter of the prefetch leaves the list as it
    is. Any failure yields the empty list: a transport error, an error
    status, a body that is not a list of rows, also on the retry that follows
    an SSL error. *)
Theorem twse_fetch_shape (strip : string → string) (first second : TwseOutcome) :
  let out := _fetch_from_twse_openapi strip first second in
  Forall (λ c, digit_id c
               ∧ ∃ row, c = (strip (default "" (row_code row)),
                             strip (default "" (row_name row)))
                        ∧ str_in "上市" (strip (default "" (row_market row))) = true) out
  ∧ candidates out = out
  ∧ (out ≠ [] →
     ∃ status_code rows,
       (first = TwseResponse status_code (TwseRows rows)
        ∨ first = TwseSSLError ∧ second = TwseResponse status_code (TwseRows rows))
       ∧ raise_for_status status_code = false
       ∧ out = omap (twse_keep strip) rows).
Proof.
  intros out.
  assert (∀ body, Forall (λ c, digit_id c
               ∧ ∃ row, c = (strip (default "" (row_code row)),
                             strip (default "" (row_name row)))
                        ∧ str_in "上市" (strip (default "" (row_market row))) = true)
            (twse_rows strip body)) as Hrows.
  { intros [|rows|]; simpl; [constructor | | constructor].
    apply Forall_forall. intros c Hc.
    apply list_elem_of_omap in Hc as (row & _ & Hk).
    apply twse_keep_spec in Hk as (-> & Hd & Hm). split; [done|]. by exists row. }
  assert (Forall (λ c, digit_id c
               ∧ ∃ row, c = (strip (default "" (row_code row)),
                             strip (default "" (row_name row)))
                        ∧ str_in "上市" (strip (default "" (row_market row))) = true) out)
    as Hall.
  { subst out. unfold _fetch_from_twse_openapi.
    destruct first as [| |st body]; [destruct second as [| |st body]| |];
      try constructor; destruct (raise_for_status st); try constructor; apply Hrows. }
  split; [exact Hall|]. split.
  - unfold candidates. apply filter_all. intros c Hc.
    rewrite Forall_forall in Hall. by destruct (Hall c Hc).
  - subst out. unfold _fetch_from_twse_openapi.
    destruct first as [| |st body]; [destruct second as [| |st body]| |]; try done.
    + destruct (raise_for_status st) eqn:Hst; [done|].
      destruct body as [|rows|]; try done. intros _. exists st, rows. auto.
    + destruct (raise_for_status st) eqn:Hst; [done|].
      destruct body as [|rows|]; try done. intros _. exists st, rows. auto.
Qed.

Lemma builtin_stocks_digit_id : Forall digit_id builtin_stocks.
Proof. repeat constructor. Qed.

(** X12. [get_all_stocks] never returns an empty list when it skips the
    cache, nor when the cache it reads is not empty: with both sources empty
    it falls back to the ten built-in candidates. The secondary source counts
    only when the primary one is empty. The list handed to [_save_cache] is
    always the list returned, never empty and never the built-in one unless a
    source returned it; nothing is saved on a cache hit. When both sources
    yield digit ids only, so does every list fetched. *)
Theorem get_all_stocks_shape (use_cache : bool) (cached : option (list Candidate))
    (finmind twse : list Candidate) :
  let r := get_all_stocks use_cache cached finmind twse in
  (use_cache = false ∨ cached ≠ Some [] → r.1 ≠ [])
  ∧ (∀ c, use_cache = true → cached = Some c → r = (c, None))
  ∧ (use_cache = false ∨ cached = None →
     (finmind ≠ [] → r = (finmind, Some finmind))
     ∧ (finmind = [] → twse ≠ [] → r = (twse, Some twse))
     ∧ (finmind = [] → twse = [] → r = (builtin_stocks, None))
     ∧ (Forall digit_id finmind → Forall digit_id twse → Forall digit_id r.1))
  ∧ (∀ saved, r.2 = Some saved →
       saved = r.1 ∧ saved ≠ [] ∧ (saved = finmind ∨ finmind = [] ∧ saved = twse)).
Proof.
  intros r. subst r. unfold get_all_stocks.
  split; [|split; [|split]].
  - intros [-> | Hc].
    + destruct finmind, twse; done.
    + destruct use_cache; [destruct cached as [[|]|]; try done|];
        destruct finmind, twse; done.
  - by intros c -> ->.
  - intros Hmiss.
    assert ((if use_cache then cached else None) = None) as ->
      by (destruct Hmiss as [-> | ->]; [done | by destruct use_cache]).
    repeat split.
    + by destruct finmind.
    + intros ->. by destruct twse.
    + by intros -> ->.
    + intros Hf Ht. destruct finmind; [destruct twse|]; simpl; try done.
      apply builtin_stocks_digit_id.
  - intros saved. destruct (if use_cache then cached else None); [done|].
    destruct finmind as [|f fs]; [destruct twse as [|t ts]|]; simpl; try done;
      intros [= <-]; auto.
Qed.

(** The witness of X12: the primary source is down, the secondary answers
    after an SSL retry. *)
Lemma get_all_stocks_shape_witness :
  let listing :=
    TwseResponse 200 (TwseRows
      [ mkTwseRow (Some " 2330 ") (Some "TSMC") (Some "上市");
        mkTwseRow (Some "00632R") (Some "T50 Inverse") (Some "上市");
        mkTwseRow (Some "6488") (Some "GlobalWafers") (Some "上櫃") ]) in
  let strip (s : string) := if decide (s = " 2330 ") then "2330" else s in
  let twse := _fetch_from_twse_openapi strip TwseSSLError listing in
  let r := get_all_stocks false (Some [("0050", "cached")]) [] twse in
  (twse = [("2330", "TSMC")] ∧ twse ≠ [])
  ∧ r = (twse, Some twse).
Proof.
  cbv zeta.
  set (strip := λ s : string, if decide (s = " 2330 ") then "2330" else s).
  set (listing := TwseResponse 200 _).
  assert (_fetch_from_twse_openapi strip TwseSSLError listing = [("2330", "TSMC")]) as Ht
    by (vm_compute; reflexivity).
  assert (_fetch_from_twse_openapi strip TwseSSLError listing ≠ []) as Hne
    by (rewrite Ht; discriminate).
  split; [by split|].
  exact (proj1 (proj2 (proj1 (proj2 (proj2
           (get_all_stocks_shape false (Some [("0050", "cached")]) []
              (_fetch_from_twse_openapi strip TwseSSLError listing))))
           (or_introl eq_refl))) eq_refl Hne).
Defined.

(* ===================================================================== *)
(** * Further properties of the FinMind client                             *)
(* ===================================================================== *)

Lemma read_response_Raise {Datum} (status_code : Z) (body : JsonBody Datum) :
  read_response status_code body = Raise
  ↔ status_code ≠ 402
    ∧ (raise_for_status status_code = true ∨ body = BodyInvalid ∨ body = BodyNotDict).
Proof.
  unfold read_response. destruct (status_code =? 402) eqn:E.
  - apply Z.eqb_eq in E. split; [done | by intros [? _]].
  - apply Z.eqb_neq in E. destruct (raise_for_status status_code).
    { split; [intros _; split; [done | by left] | done]. }
    destruct body as [| |[d|]].
    + split; [intros _; split; [done | right; by left] | done].
    + split; [intros _; split; [done | right; by right] | done].
    + split; [done | intros [_ [?|[?|?]]]; done].
    + split; [done | intros [_ [?|[?|?]]]; done].
Qed.

Lemma read_response_data {Datum} (status_code : Z) (body : JsonBody Datum) d :
  read_response status_code body = Ok d → d ≠ [] →
  body = BodyDict (Some d) ∧ status_code ≠ 402 ∧ raise_for_status status_code = false.
Proof.
  unfold read_response. destruct (status_code =? 402) eqn:E; [by intros [= <-]|].
  apply Z.eqb_neq in E. destruct (raise_for_status status_code); [done|].
  destruct body as [| |[d'|]]; try done; by intros [= <-].
Qed.

(** X13. [get_data] raises exactly when the first request fails with an SSL
    error and the retry without verification fails too: by an exception, by
    a 4xx/5xx status other than 402, or by a body that is not a JSON object.
    Whenever it returns a non-empty list, that list is the data field of a
    response with a status that is neither 402 nor an error, from the first
    request or, after an SSL error, from the retry. *)
Theorem get_data_raises_iff {Datum} (first second : HttpOutcome Datum) :
  (get_data first second = Raise
   ↔ first = HttpSSLError
     ∧ (second = HttpSSLError ∨ second = HttpOtherError
        ∨ ∃ status_code body,
            second = HttpResponse status_code body
            ∧ status_code ≠ 402
            ∧ (raise_for_status status_code = true
               ∨ body = BodyInvalid ∨ body = BodyNotDict)))
  ∧ (∀ d, get_data first second = Ok d → d ≠ [] →
       ∃ status_code,
         (first = HttpResponse status_code (BodyDict (Some d))
          ∨ first = HttpSSLError ∧ second = HttpResponse status_code (BodyDict (Some d)))
         ∧ status_code ≠ 402
         ∧ raise_for_status status_code = false).
Proof.
  split.
  - destruct first as [| |st body]; simpl.
    + destruct second as [| |st body]; simpl.
      * split; [auto | done].
      * split; [auto | done].
      * rewrite read_response_Raise. split.
        -- intros H. split; [done|]. right. right. by exists st, body.
        -- intros [_ [?|[?|(st' & body' & [= -> ->] & H)]]]; done.
    + split; [done | by intros [? _]].
    + destruct (read_response st body); split; try done; by intros [? _].
  - intros d. destruct first as [| |st body]; simpl.
    + destruct second as [| |st body]; try done.
      intros Hr Hne. destruct (read_response_data st body d Hr Hne) as (-> & ? & ?).
      exists st. auto.
    + by intros [= <-].
    + destruct (read_response st body) as [d'|] eqn:Hr; [|by intros [= <-]].
      intros [= ->] Hne. destruct (read_response_data st body d Hr Hne) as (-> & ? & ?).
      exists st. auto.
Qed.

(** The witness of X13: the retry after an SSL error succeeds. *)
Lemma get_data_raises_iff_witness :
  let rows := ["2330"; "2317"] in
  (get_data HttpSSLError (HttpResponse 200 (BodyDict (Some rows))) = Ok rows
   ∧ rows ≠ [])
  ∧ ∃ status_code,
      (@HttpSSLError string = HttpResponse status_code (BodyDict (Some rows))
       ∨ @HttpSSLError string = HttpSSLError
         ∧ HttpResponse 200 (BodyDict (Some rows))
           = HttpResponse status_code (BodyDict (Some rows)))
      ∧ status_code ≠ 402
      ∧ raise_for_status status_code = false.
Proof.
  cbv zeta.
  assert (get_data HttpSSLError (HttpResponse 200 (BodyDict (Some ["2330"; "2317"])))
          = Ok ["2330"; "2317"]) as H1 by reflexivity.
  assert (["2330"; "2317"] ≠ @nil string) as H2 by discriminate.
  split; [by split|].
  exact (proj2 (get_data_raises_iff HttpSSLError
                  (HttpResponse 200 (BodyDict (Some ["2330"; "2317"]))))
           _ H1 H2).
Defined.



(** X15. A call of [wait] entered at [now] sets the last-grant time to
    max(now, last + min_interval) plus the lateness of the final clock
    reading. So a caller that arrives at least one interval after the
    previous grant is not delayed, one that arrives earlier is held exactly
    until the interval has passed, and the last-grant time never moves
    backwards when the clock does not. *)
Theorem wait_grant_time (now late : Q) (L : RateLimiter) :
  (_last (wait now late L) == Qmax now (_last L + min_interval L) + late)%Q
  ∧ min_interval (wait now late L) = min_interval L
  ∧ ((_last L + min_interval L <= now)%Q → (_last (wait now late L) == now + late)%Q)
  ∧ ((now < _last L + min_interval L)%Q →
     (_last (wait now late L) == _last L + min_interval L + late)%Q)
  ∧ ((0 <= late)%Q → (0 <= min_interval L)%Q → (_last L <= now)%Q →
     (_last L <= _last (wait now late L))%Q ∧ (now <= _last (wait now late L))%Q).
Proof.
  unfold wait. cbn [_last min_interval].
  destruct (Qltb (now - _last L) (min_interval L)) eqn:E.
  - apply Qltb_lt in E.
    assert (Qmax now (_last L + min_interval L) == _last L + min_interval L)%Q as Hm
      by (apply Q.max_r; lra).
    repeat split; try lra.
  - apply Qltb_ge in E.
    assert (Qmax now (_last L + min_interval L) == now)%Q as Hm
      by (apply Q.max_l; lra).
    repeat split; try lra.
Qed.

(** The witness of X15: a caller 0.1 s after the previous grant at 4
    requests per second, and one a full second after it. *)
Lemma wait_grant_time_witness :
  let L := mkLimiter 0.25 1762214400 in
  ((1762214400.1 < _last L + min_interval L)%Q
   ∧ (_last L + min_interval L <= 1762214401)%Q)
  ∧ (_last (wait 1762214400.1 0 L) == 1762214400.25)%Q
  ∧ (_last (wait 1762214401 0 L) == 1762214401)%Q.
Proof.
  cbv zeta.
  assert (1762214400.1 < _last (mkLimiter 0.25 1762214400)
                         + min_interval (mkLimiter 0.25 1762214400))%Q as H1
    by (vm_compute; reflexivity).
  assert (_last (mkLimiter 0.25 1762214400) + min_interval (mkLimiter 0.25 1762214400)
          <= 1762214401)%Q as H2 by (vm_compute; discriminate).
  split; [by split|]. split.
  - rewrite (proj1 (proj2 (proj2 (proj2
               (wait_grant_time 1762214400.1 0 (mkLimiter 0.25 1762214400))))) H1).
    vm_compute. reflexivity.
  - rewrite (proj1 (proj2 (proj2
               (wait_grant_time 1762214401 0 (mkLimiter 0.25 1762214400)))) H2).
    vm_compute. reflexivity.
Defined.

(* ===================================================================== *)
(** * Properties of the single-quote lookup                                *)
(* ===================================================================== *)

Lemma first_close_Some (l : list (option Q)) (v : Q) :
  first_close l = Some v
  ↔ ∃ pre post, l = pre ++ Some v :: post ∧ Forall (λ c, c = None) pre.
Proof.
  induction l as [|[x|] l IH]; simpl.
  - split; [done|]. intros (pre & post & H & _). by destruct pre.
  - split.
    + intros [= ->]. exists [], l. by split.
    + intros (pre & post & H & Hpre). destruct pre as [|c pre].
      * by injection H as ->.
      * injection H as <- _. by apply Forall_cons in Hpre as [[=] _].
  - rewrite IH. split.
    + intros (pre & post & -> & Hpre). exists (None :: pre), post. split; [done|].
      by constructor.
    + intros (pre & post & H & Hpre). destruct pre as [|c pre]; [done|].
      injection H as _ ->. apply Forall_cons in Hpre as [_ Hpre]. by exists pre, post.
Qed.

Lemma first_close_None (l : list (option Q)) :
  first_close l = None ↔ Forall (λ c, c = None) l.
Proof.
  induction l as [|[x|] l IH]; simpl.
  - split; [constructor | done].
  - split; [done|]. by intros [[=] _]%Forall_cons.
  - rewrite IH. split; [by constructor | by intros [_ ?]%Forall_cons].
Qed.

(** X16. [_yahoo_latest_close] returns the last close of the chart that is
    not [None]: a value [v] exactly when the closes end with [v] followed
    by days without a close only, and [None] exactly when the request gave
    nothing usable or no day has a close. *)
Theorem yahoo_latest_close_is_last (yahoo : string → YahooChart) (symbol : string) :
  (∀ v, _yahoo_latest_close yahoo symbol = Some v
        ↔ ∃ pre post, yahoo symbol = ChartCloses (pre ++ Some v :: post)
                      ∧ Forall (λ c, c = None) post)
  ∧ (_yahoo_latest_close yahoo symbol = None
     ↔ yahoo symbol = ChartFailed
       ∨ ∃ closes, yahoo symbol = ChartCloses closes ∧ Forall (λ c, c = None) closes).
Proof.
  unfold _yahoo_latest_close. destruct (yahoo symbol) as [|closes]; split.
  - intros v. split; [done | by intros (? & ? & [=] & _)].
  - split; [by left | done].
  - intros v. rewrite first_close_Some. split.
    + intros (pre & post & Hrev & Hpre).
      exists (reverse post), (reverse pre). split.
      * f_equal. apply (inj reverse).
        rewrite Hrev, reverse_app, reverse_cons, reverse_involutive, reverse_involutive.
        by rewrite <- app_assoc.
      * by apply Forall_reverse.
    + intros (pre & post & [= ->] & Hpost).
      exists (reverse post), (reverse pre). split.
      * by rewrite reverse_app, reverse_cons, <- app_assoc.
      * by apply Forall_reverse.
  - rewrite first_close_None, Forall_reverse. split.
    + intros H. right. by exists closes.
    + intros [[=] | (c & [= <-] & H)]. done.
Qed.

Lemma get_latest_close_fast_cases yahoo today write_ok sid suffix use_cache
    (cache : PriceCache) :
  let r := get_latest_close_fast yahoo today write_ok sid suffix use_cache cache in
  (∃ c, use_cache = true ∧ cache !! sid = Some (today, c) ∧ r = (Some c, cache))
  ∨ ((use_cache = false ∨ ∀ c, cache !! sid ≠ Some (today, c))
     ∧ let other := if decide (suffix = ".TW") then ".TWO" else ".TW" in
       let price :=
         match _yahoo_latest_close yahoo (sid +:+ suffix) with
         | Some p => Some p
         | None => _yahoo_latest_close yahoo (sid +:+ other)
         end in
       match price with
       | Some p => r = (Some p, if write_ok then <[sid := (today, p)]> cache else cache)
       | None => r = (None, cache)
       end).
Proof.
  cbv zeta. unfold get_latest_close_fast.
  destruct use_cache.
  - destruct (cache !! sid) as [[date c]|] eqn:Hc.
    + destruct (decide (date = today)) as [-> | Hne].
      * left. by exists c.
      * right. split; [right; intros c' [= ? ?]; done|].
        by destruct (match _yahoo_latest_close yahoo (sid +:+ suffix) with
                     | Some p => Some p | None => _ end).
    + right. split; [by right|].
      by destruct (match _yahoo_latest_close yahoo (sid +:+ suffix) with
                   | Some p => Some p | None => _ end).
  - right. split; [by left|].
    by destruct (match _yahoo_latest_close yahoo (sid +:+ suffix) with
                 | Some p => Some p | None => _ end).
Qed.

(** X17. [get_latest_close_fast] and its day cache. A price it returned with
    the cache file written is what every later call of the same day returns
    for that stock when it reads the cache, whatever the upstream answers
    then and whichever suffix is preferred, and such a call leaves the cache
    as it is. A call that finds no price leaves the cache as it is. A call
    never touches the entry of another stock. And when the call preferring
    .TW finds nothing, the call preferring .TWO on the same cache and
    upstream finds nothing either: the fallback has asked both markets. *)
Theorem latest_close_cache (today sid : string) :
  (∀ yahoo suffix use_cache cache p cache',
     get_latest_close_fast yahoo today true sid suffix use_cache cache = (Some p, cache') →
     ∀ yahoo' write_ok' suffix',
       get_latest_close_fast yahoo' today write_ok' sid suffix' true cache'
       = (Some p, cache'))
  ∧ (∀ yahoo write_ok suffix use_cache cache,
       (get_latest_close_fast yahoo today write_ok sid suffix use_cache cache).1 = None →
       (get_latest_close_fast yahoo today write_ok sid suffix use_cache cache).2 = cache)
  ∧ (∀ yahoo write_ok suffix use_cache (cache : PriceCache) other,
       other ≠ sid →
       (get_latest_close_fast yahoo today write_ok sid suffix use_cache cache).2 !! other
       = cache !! other)
  ∧ (∀ yahoo write_ok write_ok' use_cache cache,
       (get_latest_close_fast yahoo today write_ok sid ".TW" use_cache cache).1 = None →
       get_latest_close_fast yahoo today write_ok' sid ".TWO" use_cache cache
       = (None, cache)).
Proof.
  assert (∀ yahoo write_ok suffix (cache : PriceCache) c,
            cache !! sid = Some (today, c) →
            get_latest_close_fast yahoo today write_ok sid suffix true cache
            = (Some c, cache)) as Hhit.
  { intros yahoo write_ok suffix cache c Hc. unfold get_latest_close_fast.
    rewrite Hc. by rewrite decide_True. }
  split; [|split; [|split]].
  - intros yahoo suffix use_cache cache p cache' Hcall yahoo' write_ok' suffix'.
    apply Hhit.
    destruct (get_latest_close_fast_cases yahoo today true sid suffix use_cache cache)
      as [(c & _ & Hc & Hr) | [_ Hr]]; cbv zeta in Hr.
    + rewrite Hr in Hcall. by injection Hcall as <- <-.
    + destruct (match _yahoo_latest_close yahoo (sid +:+ suffix) with
                | Some p0 => Some p0 | None => _ end) as [p0|];
        rewrite Hr in Hcall; [|done].
      injection Hcall as <- <-. apply lookup_insert_eq.
  - intros yahoo write_ok suffix use_cache cache.
    destruct (get_latest_close_fast_cases yahoo today write_ok sid suffix use_cache cache)
      as [(c & _ & _ & ->) | [_ Hr]]; [done|]. cbv zeta in Hr.
    destruct (match _yahoo_latest_close yahoo (sid +:+ suffix) with
              | Some p0 => Some p0 | None => _ end) as [p0|]; by rewrite Hr.
  - intros yahoo write_ok suffix use_cache cache other Hne.
    destruct (get_latest_close_fast_cases yahoo today write_ok sid suffix use_cache cache)
      as [(c & _ & _ & ->) | [_ Hr]]; [done|]. cbv zeta in Hr.
    destruct (match _yahoo_latest_close yahoo (sid +:+ suffix) with
              | Some p0 => Some p0 | None => _ end) as [p0|]; rewrite Hr; [|done].
    destruct write_ok; [|done]. simpl. by apply lookup_insert_ne.
  - intros yahoo write_ok write_ok' use_cache cache Hnone.
    destruct (get_latest_close_fast_cases yahoo today write_ok sid ".TW" use_cache cache)
      as [(c & _ & _ & Hr) | [Hmiss Hr]]; [by rewrite Hr in Hnone|].
    cbv zeta in Hr. rewrite decide_True in Hr by done.
    destruct (_yahoo_latest_close yahoo (sid +:+ ".TW")) as [p|] eqn:Htw;
      [by rewrite Hr in Hnone|].
    destruct (_yahoo_latest_close yahoo (sid +:+ ".TWO")) as [p|] eqn:Htwo;
      [by rewrite Hr in Hnone|].
    destruct (get_latest_close_fast_cases yahoo today write_ok' sid ".TWO" use_cache cache)
      as [(c & Hu & Hc & _) | [_ Hr']].
    + destruct Hmiss as [-> | Hmiss]; [done | by apply Hmiss in Hc].
    + cbv zeta in Hr'. rewrite decide_False in Hr' by done.
      by rewrite Htwo, Htw in Hr'.
Qed.

(** The witness of X17: a quote fetched from .TWO in the morning is served
    from the cache when the upstream is down. *)
Lemma latest_close_cache_witness :
  let up (symbol : string) :=
    if decide (symbol = "3008.TWO") then ChartCloses [Some 880%Q; Some 900%Q; None]
    else ChartFailed in
  let down (symbol : string) := ChartFailed in
  let cache' : PriceCache := {[ "3008" := ("2025-11-04", 900%Q) ]} in
  get_latest_close_fast up "2025-11-04" true "3008" ".TW" true ∅ = (Some 900%Q, cache')
  ∧ get_latest_close_fast down "2025-11-04" false "3008" ".TW" true cache'
    = (Some 900%Q, cache').
Proof.
  cbv zeta.
  set (up := λ symbol : string,
         if decide (symbol = "3008.TWO") then ChartCloses [Some 880%Q; Some 900%Q; None]
         else ChartFailed).
  assert (get_latest_close_fast up "2025-11-04" true "3008" ".TW" true ∅
          = (Some 900%Q, {[ "3008" := ("2025-11-04", 900%Q) ]})) as H
    by (vm_compute; reflexivity).
  split; [exact H|].
  exact (proj1 (latest_close_cache "2025-11-04" "3008") up ".TW" true ∅ _ _ H
           (λ _, ChartFailed) false ".TW").
Defined.

(* ===================================================================== *)
(** * Properties of the scan round and of the news linker                  *)
(* ===================================================================== *)

Lemma slices_spec {A} (size : nat) : ∀ fuel (l : list A),
  (0 < size)%nat → (length l ≤ fuel)%nat →
  concat (slices fuel size l) = l
  ∧ Forall (λ s, (0 < length s ≤ size)%nat) (slices fuel size l).
Proof.
  induction fuel as [|fuel IH]; intros l Hsize Hfuel.
  - destruct l; [by split | simpl in Hfuel; lia].
  - destruct l as [|a l]; [by split|].
    cbn [slices]. destruct (IH (drop size (a :: l)) Hsize) as [Hc Hall].
    { rewrite length_drop. simpl in *. lia. }
    split.
    + cbn [concat]. rewrite Hc. apply take_drop.
    + constructor; [|done]. rewrite length_take. simpl. lia.
Qed.

Lemma gather_app hash fmt cfg (a b : list (string * string * Env)) w :
  gather hash fmt cfg (a ++ b) w = gather hash fmt cfg b (gather hash fmt cfg a w).
Proof. unfold gather. apply foldl_app. Qed.

Lemma gather_concat hash fmt cfg (ws : list (list (string * string * Env))) : ∀ w,
  foldl (λ w wave, gather hash fmt cfg wave w) w ws = gather hash fmt cfg (concat ws) w.
Proof.
  induction ws as [|wave ws IH]; intros w; [done|].
  cbn [foldl concat]. by rewrite IH, gather_app.
Qed.

(** X18. With a positive BATCH_SIZE a round of the scan loop cuts the
    candidates into consecutive waves of at most BATCH_SIZE, none empty,
    that together are the candidate list; the world after the round is the
    one reached by evaluating every candidate once in list order and then
    pushing the summary, so it does not depend on BATCH_SIZE. A BATCH_SIZE
    of 0 makes the round raise, and a negative one evaluates no candidate. *)
Theorem scan_round_waves hash fmt cfg (batch_size : Z)
    (tasks : list (string * string * Env)) summary now post w :
  (0 < batch_size →
   ∃ ws, slices_by batch_size tasks = Ok ws
         ∧ concat ws = tasks
         ∧ Forall (λ wave, 0 < Z.of_nat (length wave) ≤ batch_size) ws
         ∧ scan_round hash fmt cfg batch_size tasks summary now post w
           = Ok (safe_send hash cfg summary now post (gather hash fmt cfg tasks w)))
  ∧ (batch_size = 0 →
     scan_round hash fmt cfg batch_size tasks summary now post w = Raise)
  ∧ (batch_size < 0 →
     scan_round hash fmt cfg batch_size tasks summary now post w
     = Ok (safe_send hash cfg summary now post w)).
Proof.
  split; [|split].
  - intros Hpos. unfold scan_round, slices_by.
    destruct (batch_size =? 0) eqn:E0; [apply Z.eqb_eq in E0; lia|].
    destruct (batch_size <? 0) eqn:E1; [apply Z.ltb_lt in E1; lia|].
    destruct (slices_spec (Z.to_nat batch_size) (length tasks) tasks) as [Hc Hall];
      [lia | done |].
    eexists. split; [done|]. split; [done|]. split.
    + eapply Forall_impl; [exact Hall|]. intros wave Hw. simpl in Hw. lia.
    + by rewrite gather_concat, Hc.
  - intros ->. reflexivity.
  - intros Hneg. unfold scan_round, slices_by.
    destruct (batch_size =? 0) eqn:E0; [apply Z.eqb_eq in E0; lia|].
    by destruct (batch_size <? 0) eqn:E1; [|apply Z.ltb_ge in E1; lia].
Qed.

(** The witness of X18: three candidates in waves of two. *)
Lemma scan_round_waves_witness :
  let e := mkEnv (Ok (Some breakout_frame)) (Ok None) (Ok [])
             1762214400 (PostStatus 204) true in
  let tasks := [("2330", "TSMC", e); ("2317", "Hon Hai", e); ("3008", "Largan", e)] in
  0 < 2
  ∧ slices_by 2 tasks = Ok [[("2330", "TSMC", e); ("2317", "Hon Hai", e)];
                        [("3008", "Largan", e)]]
  ∧ scan_round test_hash test_format_f default_config 2 tasks
      "summary" 1762214460 (PostStatus 204) world0
    = Ok (safe_send test_hash default_config "summary" 1762214460 (PostStatus 204)
            (gather test_hash test_format_f default_config tasks world0)).
Proof.
  cbv zeta.
  assert (0 < 2) as H0 by lia.
  split; [exact H0|]. split; [reflexivity|].
  destruct (proj1 (scan_round_waves test_hash test_format_f default_config 2
              [("2330", "TSMC", mkEnv (Ok (Some breakout_frame)) (Ok None) (Ok [])
                                  1762214400 (PostStatus 204) true);
               ("2317", "Hon Hai", mkEnv (Ok (Some breakout_frame)) (Ok None) (Ok [])
                                     1762214400 (PostStatus 204) true);
               ("3008", "Largan", mkEnv (Ok (Some breakout_frame)) (Ok None) (Ok [])
                                    1762214400 (PostStatus 204) true)]
              "summary" 1762214460 (PostStatus 204) world0) H0)
    as (ws & _ & _ & _ & Hround).
  exact Hround.
Defined.

(** X19. [link_news_to_stock] keeps, in their order, exactly the items whose
    cleaned title or cleaned content contains one of the stock's aliases; a
    stock that has no entry in the alias table, or an empty one, is linked to
    no news, and adding aliases never drops an item. *)
Theorem link_news_shape (lower_strip : string → string) (news_list : list NewsRaw)
    (stock_id : string) (aliases_map : gmap string (list string)) :
  let out := link_news_to_stock lower_strip news_list stock_id aliases_map in
  out `sublist_of` news_list
  ∧ (∀ n, n ∈ out
          ↔ n ∈ news_list
            ∧ ∃ kw, kw ∈ default [] (aliases_map !! stock_id)
                    ∧ (str_in kw (_clean lower_strip (news_title n)) = true
                       ∨ str_in kw (_clean lower_strip (news_content n)) = true))
  ∧ (aliases_map !! stock_id = None ∨ aliases_map !! stock_id = Some [] → out = [])
  ∧ (∀ kws more,
       aliases_map !! stock_id = Some kws →
       out `sublist_of`
         link_news_to_stock lower_strip news_list stock_id
           (<[stock_id := kws ++ more]> aliases_map)).
Proof.
  intros out. subst out. unfold link_news_to_stock.
  assert (∀ kws n, news_hit lower_strip kws n = true
            ↔ ∃ kw, kw ∈ kws
                    ∧ (str_in kw (_clean lower_strip (news_title n)) = true
                       ∨ str_in kw (_clean lower_strip (news_content n)) = true)) as Hhit.
  { intros kws n. unfold news_hit. rewrite existsb_exists. split.
    - intros (kw & Hin & Hor). exists kw. rewrite list_elem_of_In.
      by apply orb_true_iff in Hor.
    - intros (kw & Hin & Hor). exists kw. rewrite <- list_elem_of_In.
      split; [done | by apply orb_true_iff]. }
  split; [apply sublist_filter|]. split; [|split].
  - intros n. rewrite list_elem_of_filter, Hhit. tauto.
  - intros Hnone.
    assert (default [] (aliases_map !! stock_id) = []) as ->
      by (destruct Hnone as [-> | ->]; done).
    induction news_list as [|n l IH]; [done|].
    by rewrite filter_cons_False.
  - intros kws more Hk. rewrite Hk, lookup_insert_eq. simpl.
    induction news_list as [|n l IH]; [done|].
    rewrite !filter_cons.
    destruct (decide (news_hit lower_strip kws n = true)) as [Hn | Hn].
    + rewrite decide_True; [by apply sublist_skip|].
      apply Hhit in Hn as (kw & Hin & Hor). apply Hhit. exists kw.
      split; [apply elem_of_app; by left | done].
    + destruct (decide (news_hit lower_strip (kws ++ more) n = true));
        [by apply sublist_cons | done].
Qed.

(* ===================================================================== *)
(** * Properties of the batched quote lookup                               *)
(* ===================================================================== *)

Lemma add_items_inv (P : string → Quote → Prop) (items : list QuoteItem) : ∀ out,
  (∀ sid q, out !! sid = Some q → P sid q) →
  (∀ item q, item ∈ items → quote_of item = Some q → P (before_dot (q_symbol item)) q) →
  ∀ sid q, foldl add_item out items !! sid = Some q → P sid q.
Proof.
  induction items as [|item items IH]; intros out Hout Hitems sid q; [apply Hout|].
  cbn [foldl]. apply IH.
  - intros sid' q'. unfold add_item.
    destruct (quote_of item) as [q0|] eqn:Hq; [|apply Hout].
    rewrite lookup_insert. case_decide as Hk; [|apply Hout].
    intros [= <-]. subst sid'. apply Hitems; [by left | done].
  - intros item' q' Hin. apply Hitems. by right.
Qed.

Lemma add_chunks_inv fetch_quotes suffix (all chunks : list (list string)) : ∀ out,
  (∀ sid q, out !! sid = Some q → quoted_by fetch_quotes suffix all sid q) →
  chunks ⊆ all →
  ∀ sid q, foldl (add_chunk fetch_quotes suffix) out chunks !! sid = Some q →
           quoted_by fetch_quotes suffix all sid q.
Proof.
  induction chunks as [|chunk chunks IH]; intros out Hout Hsub sid q; [apply Hout|].
  cbn [foldl]. apply IH; [|set_solver].
  intros sid' q'. unfold add_chunk.
  destruct (fetch_quotes _) as [items|] eqn:Hf; [|apply Hout].
  apply add_items_inv; [exact Hout|].
  intros item q0 Hin Hq. exists chunk, items, item.
  repeat split; [set_solver | done | done | done].
Qed.

(** X20. With a positive batch size [get_quote_batch] does not raise, asks
    for every id once, in chunks of at most that size, and every quote of its
    result stems from an entry returned for one of the chunks: its key is the
    entry's symbol up to the first dot and its price is the entry's
    regularMarketPrice or, when that is missing, the previous close. A chunk
    whose request fails is skipped; when every request fails, or the id list
    is empty, the result is the empty map. A batch size of 0 with ids to look
    up makes the call raise. *)
Theorem quote_batch_shape (fetch_quotes : list string → Res (list QuoteItem))
    (stock_ids : list string) (suffix : string) (batch_size : Z) :
  (0 < batch_size →
   ∃ chunks out,
     concat chunks = stock_ids
     ∧ Forall (λ chunk, 0 < Z.of_nat (length chunk) ≤ batch_size) chunks
     ∧ get_quote_batch fetch_quotes stock_ids suffix batch_size = Ok out
     ∧ (∀ sid q, out !! sid = Some q → quoted_by fetch_quotes suffix chunks sid q)
     ∧ ((∀ symbols, fetch_quotes symbols = Raise) → out = ∅))
  ∧ (∀ item q, quote_of item = Some q →
       price q = default (default 0%Q (regularMarketPreviousClose item))
                   (regularMarketPrice item))
  ∧ (batch_size = 0 → stock_ids ≠ [] →
     get_quote_batch fetch_quotes stock_ids suffix batch_size = Raise).
Proof.
  split; [|split].
  - intros Hpos.
    destruct (slices_spec (Z.to_nat batch_size) (length stock_ids) stock_ids)
      as [Hc Hall]; [lia | done |].
    assert (slices_by batch_size stock_ids
            = Ok (slices (length stock_ids) (Z.to_nat batch_size) stock_ids)) as Hs.
    { unfold slices_by.
      destruct (batch_size =? 0) eqn:E0; [apply Z.eqb_eq in E0; lia|].
      by destruct (batch_size <? 0) eqn:E1; [apply Z.ltb_lt in E1; lia|]. }
    exists (slices (length stock_ids) (Z.to_nat batch_size) stock_ids).
    destruct stock_ids as [|s0 ids] eqn:Hids.
    + exists ∅. repeat split; [constructor | by intros sid q; rewrite lookup_empty].
    + rewrite <- Hids in *.
      exists (foldl (add_chunk fetch_quotes suffix) ∅
                (slices (length stock_ids) (Z.to_nat batch_size) stock_ids)).
      split; [done|]. split.
      { eapply Forall_impl; [exact Hall|]. intros chunk Hw. simpl in Hw. lia. }
      split.
      { unfold get_quote_batch. rewrite Hs. by rewrite Hids. }
      split.
      { apply add_chunks_inv; [by intros sid q; rewrite lookup_empty | done]. }
      intros Hdown.
      generalize (slices (length stock_ids) (Z.to_nat batch_size) stock_ids).
      intros chunks. induction chunks as [|chunk chunks IH] using rev_ind; [done|].
      rewrite foldl_snoc, IH. unfold add_chunk. by rewrite Hdown.
  - intros item q. unfold quote_of.
    destruct (regularMarketPrice item) as [p|];
      [|destruct (regularMarketPreviousClose item) as [p|]]; intros [= <-]; done.
  - intros -> Hne. unfold get_quote_batch. by destruct stock_ids.
Qed.

(** The witness of X20: three ids in chunks of two; the first request
    answers, the second fails. *)
Lemma quote_batch_shape_witness :
  let fetch (symbols : list string) : Res (list QuoteItem) :=
    if decide (symbols = ["2330.TW"; "2317.TW"])
    then Ok [ mkQuoteItem "2330.TW" (Some 1000%Q) None (Some 500) None None;
              mkQuoteItem "2317.TW" None (Some 180%Q) None None None ]
    else Raise in
  0 < 2
  ∧ get_quote_batch fetch ["2330"; "2317"; "3008"] ".TW" 2
    = Ok {[ "2330" := mkQuote 1000 500 0 0; "2317" := mkQuote 180 0 0 0 ]}
  ∧ ∃ chunks, concat chunks = ["2330"; "2317"; "3008"]
              ∧ Forall (λ chunk, 0 < Z.of_nat (length chunk) ≤ 2) chunks.
Proof.
  cbv zeta.
  set (fetch := λ symbols : list string,
         if decide (symbols = ["2330.TW"; "2317.TW"])
         then Ok [ mkQuoteItem "2330.TW" (Some 1000%Q) None (Some 500) None None;
                   mkQuoteItem "2317.TW" None (Some 180%Q) None None None ]
         else Raise).
  assert (0 < 2) as H0 by lia.
  split; [exact H0|]. split; [vm_compute; reflexivity|].
  destruct (proj1 (quote_batch_shape fetch ["2330"; "2317"; "3008"] ".TW" 2) H0)
    as (chunks & out & Hc & Hall & _).
  by exists chunks.
Defined.

(* ===================================================================== *)
(** * The fetchers between the client and the pipeline                     *)
(* ===================================================================== *)

Lemma process_stock_no_price hash fmt cfg sid sname e w :
  env_price e = Raise ∨ env_price e = Ok None →
  process_stock hash fmt cfg sid sname e w = w.
Proof.
  intros H. unfold process_stock, process_stock_run. destruct (_ || _); [done|].
  by destruct H as [-> | ->].
Qed.

(** X21. The price fetcher and the pipeline. A usable cache file is returned
    without regard to the network, and nothing is written. Without one, a
    402 answer, an empty data list or any failure that [get_data] maps to
    the empty list makes [get_price_with_ma] return [None]; it raises only
    when [get_data] raises or pandas does; nothing is written unless a frame
    is returned. In each of these cases without a frame, [process_stock]
    leaves the world unchanged: the candidate is skipped and the exception,
    if any, goes no further. *)
Theorem price_feed_failure_contained {Datum}
    (normalize : list Datum → Res (option DataFrame))
    (cached : option DataFrame) (first second : HttpOutcome Datum) :
  let r := get_price_with_ma Datum normalize cached first second in
  (∀ df, cached = Some df → r = (Ok (Some df), None))
  ∧ (cached = None →
     (get_data first second = Ok [] → r = (Ok None, None))
     ∧ (∀ body, first = HttpResponse 402 body → r = (Ok None, None))
     ∧ (r.1 = Raise ↔
        get_data first second = Raise
        ∨ ∃ data, get_data first second = Ok data ∧ data ≠ [] ∧ normalize data = Raise))
  ∧ (∀ df, r.2 = Some df → r.1 = Ok (Some df) ∧ cached = None)
  ∧ (∀ hash fmt cfg sid sname e w,
       env_price e = r.1 →
       (∀ df, r.1 ≠ Ok (Some df)) →
       process_stock hash fmt cfg sid sname e w = w).
Proof.
  intros r. subst r. unfold get_price_with_ma.
  split; [by intros df ->|]. split; [|split].
  - intros ->. split; [by intros ->|]. split; [by intros body ->|].
    destruct (get_data first second) as [[|d data]|] eqn:Hg.
    + split; [done|]. intros [[=] | (data & [= <-] & Hne & _)]; done.
    + destruct (normalize (d :: data)) as [[df|]|] eqn:Hn; simpl.
      * split; [done|]. intros [[=] | (data' & [= <-] & _ & Hr)]. congruence.
      * split; [done|]. intros [[=] | (data' & [= <-] & _ & Hr)]. congruence.
      * split; [|done]. intros _. right. by exists (d :: data).
    + split; [by left | done].
  - intros df. destruct cached as [c|]; [done|].
    destruct (get_data first second) as [[|d data]|]; try done.
    destruct (normalize (d :: data)) as [[df'|]|]; try done.
    by intros [= ->].
  - intros hash fmt cfg sid sname e w He Hno. apply process_stock_no_price.
    rewrite He.
    destruct cached as [c|]; [by specialize (Hno c)|].
    destruct (get_data first second) as [[|d data]|]; auto.
    destruct (normalize (d :: data)) as [[df'|]|]; auto.
    by specialize (Hno df').
Qed.

(** The witness of X21: the price request is answered 402. *)
Lemma price_feed_failure_contained_witness :
  let normalize (data : list string) : Res (option DataFrame) := Ok (Some breakout_frame) in
  let first := HttpResponse 402 (BodyDict (Some ["row"])) in
  let r := get_price_with_ma string normalize None first HttpOtherError in
  let e := mkEnv r.1 (Ok None) (Ok []) 1762214400 (PostStatus 204) true in
  (env_price e = r.1 ∧ ∀ df, r.1 ≠ Ok (Some df))
  ∧ process_stock test_hash test_format_f default_config "2330" "TSMC" e world0 = world0.
Proof.
  cbv zeta.
  set (normalize := λ data : list string, Ok (Some breakout_frame)).
  set (r := get_price_with_ma string normalize None
              (HttpResponse 402 (BodyDict (Some ["row"]))) HttpOtherError).
  assert (∀ df, r.1 ≠ Ok (Some df)) as Hno by (intros df; subst r; simpl; discriminate).
  split; [by split|].
  exact (proj2 (proj2 (proj2
           (price_feed_failure_contained normalize None
              (HttpResponse 402 (BodyDict (Some ["row"]))) HttpOtherError)))
           test_hash test_format_f default_config "2330" "TSMC"
           (mkEnv r.1 (Ok None) (Ok []) 1762214400 (PostStatus 204) true) world0
           eq_refl Hno).
Defined.

(** X22. The fund-flow fetcher and the pipeline. With FUND_FLOW_ENABLED off
    [get_fund_flow] returns [None] without a request; with it on and no
    usable cache, a 402 answer or an empty data list gives [None] as well.
    On [None] the fundamental strategy reports insufficient data. A missing
    fund flow does not stop the evaluation at line 51: with quota left, a
    frame of at least 20 rows and the news at hand, the evaluation goes on
    to the call of the strategies at line 58, the same exit it takes with
    fund-flow data; only an exception of [get_fund_flow] ends it at that
    step. *)
Theorem fund_feed_failure_degrades {Datum}
    (build_flows : list Datum → Res (option (list FundRow)))
    (enabled : bool) (cached : option (list FundRow)) (first second : HttpOutcome Datum) :
  let r := get_fund_flow Datum build_flows enabled cached first second in
  (enabled = false → r = (Ok None, None))
  ∧ (enabled = true → cached = None →
     (get_data first second = Ok [] → r = (Ok None, None))
     ∧ (∀ body, first = HttpResponse 402 body → r = (Ok None, None)))
  ∧ (∀ fmt, strategy_fundamental fmt None = mkResult "法人策略" false "法人資料不足" None)
  ∧ (∀ hash fmt cfg sid sname e w df news,
       env_fund e = r.1 →
       get_count (sent_today w) sid < MAX_SIGNAL_PER_STOCK cfg →
       sum_values (sent_today w) < MAX_SIGNAL_TOTAL cfg →
       env_price e = Ok (Some df) →
       (20 ≤ length (bars df))%nat →
       env_news e = Ok news →
       (process_stock_run hash fmt cfg sid sname e w).1 =
         match r.1 with
         | Raise => Caught GetFundFlow
         | Ok _ => Caught RunAllStrategies
         end).
Proof.
  intros r. subst r. unfold get_fund_flow.
  split; [by intros ->|]. split; [|split].
  - intros -> ->. simpl. split; [by intros ->|]. by intros body ->.
  - done.
  - intros hash fmt cfg sid sname e w df news He Hc Ht Hp Hlen Hn.
    destruct (history_check hash fmt cfg sid sname e w df Hc Ht Hp) as [_ Hgo].
    rewrite (Hgo Hlen), He, Hn. reflexivity.
Qed.

(** The witness of X22: fund flow switched off, a breakout in the prices. *)
Lemma fund_feed_failure_degrades_witness :
  let build (data : list string) : Res (option (list FundRow)) := Ok (Some fund_buying) in
  let r := get_fund_flow string build false None HttpOtherError HttpOtherError in
  let e := mkEnv (Ok (Some breakout_frame)) r.1 (Ok [])
             1762214400 (PostStatus 204) true in
  (r.1 = Ok None
   ∧ get_count (sent_today world0) "2330" < MAX_SIGNAL_PER_STOCK default_config
   ∧ sum_values (sent_today world0) < MAX_SIGNAL_TOTAL default_config
   ∧ (20 ≤ length (bars breakout_frame))%nat)
  ∧ (process_stock_run test_hash test_format_f default_config "2330" "TSMC" e world0).1
    = Caught RunAllStrategies.
Proof.
  cbv zeta.
  set (build := λ data : list string, Ok (Some fund_buying)).
  assert (get_count (sent_today world0) "2330" < MAX_SIGNAL_PER_STOCK default_config)
    as H2 by (vm_compute; reflexivity).
  assert (sum_values (sent_today world0) < MAX_SIGNAL_TOTAL default_config)
    as H3 by (vm_compute; reflexivity).
  assert (20 ≤ length (bars breakout_frame))%nat as H4 by (vm_compute; lia).
  split; [by repeat split|].
  exact (proj2 (proj2 (proj2
           (fund_feed_failure_degrades build false None HttpOtherError HttpOtherError)))
           test_hash test_format_f default_config "2330" "TSMC"
           (mkEnv (Ok (Some breakout_frame)) (Ok None) (Ok [])
              1762214400 (PostStatus 204) true)
           world0 breakout_frame [] eq_refl H2 H3 eq_refl H4 eq_refl).
Defined.

(* ===================================================================== *)
(** * Further instances                                                    *)
(* ===================================================================== *)

(** The witness of X11: a listing of three rows behind an SSL retry. *)
Lemma twse_fetch_shape_witness :
  let listing :=
    TwseResponse 200 (TwseRows
      [ mkTwseRow (Some "2330") (Some "TSMC") (Some "上市");
        mkTwseRow (Some "00632R") (Some "T50 Inverse") (Some "上市");
        mkTwseRow (Some "6488") None (Some "上櫃") ]) in
  let out := _fetch_from_twse_openapi (λ s, s) TwseSSLError listing in
  out ≠ []
  ∧ out = [("2330", "TSMC")]
  ∧ candidates out = out.
Proof.
  cbv zeta.
  set (listing := TwseResponse 200 _).
  assert (_fetch_from_twse_openapi (λ s, s) TwseSSLError listing = [("2330", "TSMC")])
    as Hout by (vm_compute; reflexivity).
  split; [rewrite Hout; discriminate|]. split; [exact Hout|].
  exact (proj1 (proj2 (twse_fetch_shape (λ s, s) TwseSSLError listing))).
Defined.


(** The witness of X19: one headline that names the stock, one that does
    not. *)
Lemma link_news_shape_witness :
  let news := [ mkNewsRaw (Some "tsmc hits record") None;
                mkNewsRaw (Some "rates on hold") (Some "no stock named") ] in
  let aliases : gmap string (list string) := {[ "2330" := ["2330"; "tsmc"] ]} in
  aliases !! "2317" = None
  ∧ link_news_to_stock (λ s, s) news "2317" aliases = []
  ∧ link_news_to_stock (λ s, s) news "2330" aliases
    = [mkNewsRaw (Some "tsmc hits record") None].
Proof.
  cbv zeta.
  set (news := [ mkNewsRaw (Some "tsmc hits record") None;
                 mkNewsRaw (Some "rates on hold") (Some "no stock named") ]).
  set (aliases := ({[ "2330" := ["2330"; "tsmc"] ]} : gmap string (list string))).
  assert (aliases !! "2317" = None) as H by (vm_compute; reflexivity).
  split; [exact H|]. split; [|vm_compute; reflexivity].
  exact (proj1 (proj2 (proj2 (link_news_shape (λ s, s) news "2317" aliases)))
           (or_introl H)).
Defined.
